(** * gitime: set the mtime of the files of a git work tree from the history

    A shallow embedding of [gitime.go] (the active code path: [main],
    [logWalk], [getCommits], [getCommitFiles]) and the properties of its
    specification.

    The program talks to three things outside itself: the [git] executable,
    the file system and the Go library.  The git executable is an oracle
    from argument vectors to the combined output and the exit condition of
    the subprocess; the file system is a finite map from path names to the
    time stamps of the files; of the Go library, [strings.Split] is written
    out, and [time.Parse], [path.Join] and [os.Getwd] are taken as they
    come, as the fields of the class [World].  Every call that touches the
    outside is recorded in a trace, so that the order of the effects of a
    run can be stated.

    The properties are numbered as the claims of the specification; C1
    and C4 do not hold of the code, and are settled by the evaluation of
    the program, C1 on the scenario of the specification and C4 on a
    history in which a directory became a regular file. *)

From Stdlib Require Import ZArith String Ascii List Lia.
From stdpp Require Import base tactics option list strings gmap.

Open Scope string_scope.
Open Scope list_scope.

(** ** strings.Split(s, "\n") *)

Definition newline : ascii := "010"%char.

(** [strings.Split] with the one-byte separator the program uses: the
    pieces between the separators, in order; [n] separators give [n+1]
    pieces, some of which may be empty. *)
Fixpoint strings_Split (s : string) (sep : ascii) : list string :=
  match s with
  | EmptyString => [EmptyString]
  | String c rest =>
      if Ascii.eqb c sep then EmptyString :: strings_Split rest sep
      else match strings_Split rest sep with
           | [] => [String c EmptyString]
           | piece :: pieces => String c piece :: pieces
           end
  end.

(** ** Outcomes of a Go computation *)

(** A call returns, or ends the process through [os.Exit], or panics (an
    index out of range is the only panic the code could raise). *)
Inductive Outcome (A : Type) : Type :=
| Ret (a : A)
| Exit (code : Z)
| Panic (msg : string).

Arguments Ret {A} a.
Arguments Exit {A} code.
Arguments Panic {A} msg.

(** The exit status the shell sees: 0 when [main] returns, the argument of
    [os.Exit], and 2 for a panic of the Go runtime. *)
Definition exit_status {A} (o : Outcome A) : Z :=
  match o with
  | Ret _ => 0
  | Exit code => code
  | Panic _ => 2
  end.

(** The result of [cmd.CombinedOutput()]: the bytes written by the
    subprocess and whether the error is non-nil. *)
Record CmdResult : Type := { cmd_out : string; cmd_failed : bool }.

(** ** The outside world *)

(** What a run depends on and does not define itself, over the type
    [Time] of the values of [time.Time]. *)
Class World (Time : Type) : Type := {
  (** The zero value [time.Time{}] and [time.Parse layout value] ([None]
      when the error is non-nil). *)
  time_zero : Time;
  time_Parse : string -> string -> option Time;
  (** [path.Join(dir, name)]. *)
  path_Join : string -> string -> string;
  (** The subprocess run by [exec.Command(argv...).CombinedOutput()]. *)
  run_command : list string -> CmdResult;
  (** [os.Getwd()]: the directory, or the text of the error. *)
  os_Getwd : string + string;
  (** What the system answers on a path that names no file of the disk:
      [None] when the path simply is not there ("no such file or
      directory", the error of which [os.IsNotExist] holds), or the text of
      another error, as "not a directory" for a path with a regular file
      where it needs a directory.  A run creates and removes nothing, so
      that this does not change in its course. *)
  path_error : string -> option string
}.

Section Gitime.

Context {Time : Type} {W : World Time}.

(** ** Data *)

(** A file on disk: its access and modification times, and the error
    [utimes] raises on it, if any (a file of another owner, a read-only
    file system, a path component that cannot be traversed). *)
Record File : Type := { atime : Time; mtime : Time; utime_err : option string }.

(** An operand of [fmt.Println]. *)
Inductive Val : Type :=
| VTime (t : Time)
| VStr (s : string).

(** What the process does to the outside, in order. *)
Inductive Event : Type :=
| Exec (argv : list string)
| Println (operands : list Val)
| Stderr (text : string)
| Stat (name : string)
| Chtimes (name : string) (at_ mt : Time).

(** The state of a run: the files of the disk by path, and the trace. *)
Record Proc : Type := { disk : gmap string File; trace : list Event }.

Definition start (d : gmap string File) : Proc := {| disk := d; trace := [] |}.

(** ** The monad of Go statements *)

Definition M (A : Type) : Type := Proc -> Outcome A * Proc.

Definition ret {A} (a : A) : M A := fun st => (Ret a, st).

Definition bind {A B} (m : M A) (k : A -> M B) : M B :=
  fun st =>
    match m st with
    | (Ret a, st') => k a st'
    | (Exit code, st') => (Exit code, st')
    | (Panic msg, st') => (Panic msg, st')
    end.

Notation "x <- m ;; k" := (bind m (fun x => k))
  (at level 20, m at level 99, k at level 200, only parsing).
Notation "' p <- m ;; k" := (bind m (fun p => k))
  (at level 20, p pattern, m at level 99, k at level 200, only parsing).
Notation "m ;;; k" := (bind m (fun _ => k))
  (at level 99, k at level 200, only parsing, right associativity).

Definition emit (e : Event) : M unit :=
  fun st => (Ret tt, {| disk := disk st; trace := trace st ++ [e] |}).

Definition os_Exit {A} (code : Z) : M A := fun st => (Exit code, st).

Definition panic {A} (msg : string) : M A := fun st => (Panic msg, st).

(** [for _, x := range xs { body }]; a [continue] is a body that returns. *)
Fixpoint for_range {A} (xs : list A) (body : A -> M unit) : M unit :=
  match xs with
  | [] => ret tt
  | x :: xs' => body x ;;; for_range xs' body
  end.

(** A counting loop that updates a local variable. *)
Fixpoint for_acc {A S} (xs : list A) (body : A -> S -> M S) (s : S) : M S :=
  match xs with
  | [] => ret s
  | x :: xs' => s' <- body x s ;; for_acc xs' body s'
  end.

(** [xs[i]], which panics out of range. *)
Definition index (xs : list string) (i : nat) : M string :=
  match xs !! i with
  | Some x => ret x
  | None => panic "index out of range"
  end.

(** ** The library calls with an effect *)

Definition CombinedOutput (argv : list string) : M CmdResult :=
  emit (Exec argv) ;;; ret (run_command argv).

Definition fmt_Println (operands : list Val) : M unit := emit (Println operands).

Definition Fprintf_Stderr (format : string) (v : string) : M unit :=
  emit (Stderr (format +:+ v)).

(** [_, err := os.Stat(name); os.IsNotExist(err)]: the path names no file
    and the error is "no such file or directory"; for a path that is not
    there and has another error, as for a path that is there, the answer
    is [false]. *)
Definition os_Stat_IsNotExist (name : string) : M bool :=
  emit (Stat name) ;;;
  fun st => (Ret (bool_decide (disk st !! name = None /\ path_error name = None)), st).

(** The file [f] with both times set. *)
Definition touched (at_ mt : Time) (f : File) : File :=
  {| atime := at_; mtime := mt; utime_err := utime_err f |}.

(** [os.Chtimes(name, atime, mtime)]: the error, or [None] after both
    times of the file have been set. *)
Definition os_Chtimes (name : string) (at_ mt : Time) : M (option string) :=
  emit (Chtimes name at_ mt) ;;;
  fun st =>
    match disk st !! name with
    | None =>
        (Ret (Some ("chtimes " +:+ name +:+ ": " +:+
                    default "no such file or directory" (path_error name))), st)
    | Some f =>
        match utime_err f with
        | Some e => (Ret (Some e), st)
        | None =>
            (Ret None,
             {| disk := <[name := touched at_ mt f]> (disk st); trace := trace st |})
        end
    end.

(** ** gitime.go *)

Definition layout : string := "Mon Jan 2 15:04:05 2006 -0700".

(** Lists all commits. *)
Definition getCommits : M (list string * option string) :=
  r <- CombinedOutput ["git"; "log"; "--pretty=%H"] ;;
  if cmd_failed r then ret ([], Some (cmd_out r))
  else ret (strings_Split (cmd_out r) newline, None).

(** Files changed in particular commit. *)
Definition getCommitFiles (hash : string) : M (Time * list string * option string) :=
  r <- CombinedOutput ["git"; "show"; "--name-only"; "--pretty=%ad"; hash] ;;
  if cmd_failed r then ret (time_zero, [], Some (cmd_out r))
  else
    let lines := strings_Split (cmd_out r) newline in
    line0 <- index lines 0 ;;
    let '(date, err) :=
      match time_Parse layout line0 with
      | Some t => (t, None)
      | None => (time_zero, Some ("Could not understand this time stamp: " +:+ line0))
      end in
    files <- for_acc (seq 1 (length lines - 1))
               (fun i files =>
                  line <- index lines i ;;
                  if String.eqb line "" then ret files
                  else ret (files ++ [line]))
               [] ;;
    ret (date, files, err).

(** Get full commit list and files updated at each commit. *)
Definition logWalk (gitDir : string) : M unit :=
  '(hashes, err) <- getCommits ;;
  match err with
  | Some e => Fprintf_Stderr "Error listing git commits: " e ;;; os_Exit 1
  | None => ret tt
  end ;;;
  for_range hashes (fun hash =>
    if String.eqb hash "" then ret tt
    else
      '(mtime, fs, err) <- getCommitFiles hash ;;
      match err with
      | Some e => Fprintf_Stderr "Error listing git commit files: " e ;;; os_Exit 1
      | None => ret tt
      end ;;;
      for_range fs (fun f =>
        fmt_Println [VTime mtime; VStr ":"; VStr f] ;;;
        let fpath := path_Join gitDir f in
        missing <- os_Stat_IsNotExist fpath ;;
        if missing : bool then Fprintf_Stderr "SKIP not existing file: " f
        else
          err <- os_Chtimes fpath mtime mtime ;;
          match err with
          | Some e => Fprintf_Stderr "Error changing file mtime: " e ;;; os_Exit 1
          | None => ret tt
          end)).

Definition main : M unit :=
  match os_Getwd with
  | inr e =>
      Fprintf_Stderr "Error getting working directory: " e ;;;
      fmt_Println [VStr "Usage:"] ;;;
      fmt_Println [VStr "cd <git-dir> && <bin-dir>/gitime"] ;;;
      os_Exit 1
  | inl pwd => logWalk pwd
  end.

(** ** The pieces of a run, named

    The statements below speak of the argument vectors, of the two loop
    bodies of [logWalk] and of what the detail retriever returns; these are
    the same terms as in the definitions above (see [logWalk_unfold]). *)

Definition log_argv : list string := ["git"; "log"; "--pretty=%H"].

Definition show_argv (hash : string) : list string :=
  ["git"; "show"; "--name-only"; "--pretty=%ad"; hash].

(** The state [st] after the events [evs]. *)
Definition after (st : Proc) (evs : list Event) : Proc :=
  {| disk := disk st; trace := trace st ++ evs |}.

(** The progress line of a path. *)
Definition progress (t : Time) (f : string) : Event :=
  Println [VTime t; VStr ":"; VStr f].

(** The body of the loop over the files of a commit. *)
Definition update_file (gitDir : string) (t : Time) (f : string) : M unit :=
  fmt_Println [VTime t; VStr ":"; VStr f] ;;;
  let fpath := path_Join gitDir f in
  missing <- os_Stat_IsNotExist fpath ;;
  if missing : bool then Fprintf_Stderr "SKIP not existing file: " f
  else
    err <- os_Chtimes fpath t t ;;
    match err with
    | Some e => Fprintf_Stderr "Error changing file mtime: " e ;;; os_Exit 1
    | None => ret tt
    end.

(** The body of the loop over the commits. *)
Definition walk_commit (gitDir : string) (hash : string) : M unit :=
  if String.eqb hash "" then ret tt
  else
    '(t, fs, err) <- getCommitFiles hash ;;
    match err with
    | Some e => Fprintf_Stderr "Error listing git commit files: " e ;;; os_Exit 1
    | None => ret tt
    end ;;;
    for_range fs (update_file gitDir t).

(** The identifiers the enumeration yields when [git log] succeeds. *)
Definition commit_ids : list string :=
  strings_Split (cmd_out (run_command log_argv)) newline.

(** The state in which the loop over the commits starts. *)
Definition listed (d : gmap string File) : Proc := after (start d) [Exec log_argv].

(** ** The commit record, as the specification words it *)

(** The lines of the output of [git show] for a commit. *)
Definition detail_lines (hash : string) : list string :=
  strings_Split (cmd_out (run_command (show_argv hash))) newline.

Definition date_line (hash : string) : string := hd "" (detail_lines hash).

(** The lines after the first, verbatim and in order, without the empty
    ones. *)
Definition paths_of (lines : list string) : list string :=
  filter (fun line => line <> "") (drop 1 lines).

(** What [getCommitFiles] returns: the date, the files and the error. *)
Definition commit_record (hash : string) : Time * list string * option string :=
  let r := run_command (show_argv hash) in
  if cmd_failed r then (time_zero, [], Some (cmd_out r))
  else
    match time_Parse layout (date_line hash) with
    | Some t => (t, paths_of (detail_lines hash), None)
    | None =>
        (time_zero, paths_of (detail_lines hash),
         Some ("Could not understand this time stamp: " +:+ date_line hash))
    end.

Definition timestamp (hash : string) : Time := (commit_record hash).1.1.
Definition changed_paths (hash : string) : list string := (commit_record hash).1.2.
Definition retrieval_error (hash : string) : option string := (commit_record hash).2.


(** ** Time stamp writes as data *)

(** Both times of the file at [p] set to [t], when there is such a file. *)
Definition touch (w : string * Time) (d : gmap string File) : gmap string File :=
  match d !! w.1 with
  | Some file => <[w.1 := touched w.2 w.2 file]> d
  | None => d
  end.

Definition apply_writes (ws : list (string * Time)) (d : gmap string File)
  : gmap string File :=
  fold_left (fun d w => touch w d) ws d.

(** The time of the last write to [p] in a list of writes. *)
Fixpoint last_write (p : string) (ws : list (string * Time)) : option Time :=
  match ws with
  | [] => None
  | w :: ws' =>
      match last_write p ws' with
      | Some t => Some t
      | None => if decide (w.1 = p) then Some w.2 else None
      end
  end.

(** Two disks with the same files and the same [utimes] errors. *)
Definition same_shape (d1 d2 : gmap string File) : Prop :=
  forall p, utime_err <$> d1 !! p = utime_err <$> d2 !! p.

(** ** Standard output *)

(** The operands of the [fmt.Println] calls of a trace, in order. *)
Definition printed (tr : list Event) : list (list Val) :=
  omap (fun e => match e with Println ops => Some ops | _ => None end) tr.


(** ** Predicates on outcomes and disks *)

(** An outcome of [logWalk]: the only exit status of a failure is 1, and
    nothing panics. *)
Definition clean (o : Outcome unit) : Prop := o = Ret tt \/ o = Exit 1.

(** The files on disk all accept a change of their times. *)
Definition stampable (d : gmap string File) : Prop :=
  forall p file, d !! p = Some file -> utime_err file = None.

(** The path [p] is reported missing: it names no file of the disk [d] and
    the error is the one of which [os.IsNotExist] holds. *)
Definition reported_missing (d : gmap string File) (p : string) : Prop :=
  d !! p = None /\ path_error p = None.

(** The paths [ps] that are not on the disk [d] are all reported missing:
    none is out of reach for another reason. *)
Definition in_reach (d : gmap string File) (ps : list string) : Prop :=
  forall p, p ∈ ps -> d !! p = None -> path_error p = None.


(** A file after the writes [ws], when it is the file at [p]. *)
Definition restamp (p : string) (ws : list (string * Time)) (file : File) : File :=
  match last_write p ws with
  | Some t => touched t t file
  | None => file
  end.

(** A computation that sees of the disk only which files exist and which
    refuse a change of their times: on two disks of the same shape it ends
    the same way and makes the same time stamp writes. *)
Definition uniform {A} (m : M A) : Prop :=
  forall st1 st2,
    same_shape (disk st1) (disk st2) ->
    (m st1).1 = (m st2).1
    /\ exists ws,
        disk (m st1).2 = apply_writes ws (disk st1)
        /\ disk (m st2).2 = apply_writes ws (disk st2).

(** ** Order of the events *)




(** ** The events of a run that returns *)

(** What [logWalk] does for the path [f] of a commit of time [t] in a run
    that returns, on the disk [d]: the progress line, the existence check,
    and then the write of the times for a file on disk, or the warning for
    a path that is not there. *)
Definition file_events (gitDir : string) (d : gmap string File) (t : Time) (f : string)
  : list Event :=
  let p := path_Join gitDir f in
  [Println [VTime t; VStr ":"; VStr f]; Stat p] ++
  match d !! p with
  | Some _ => [Chtimes p t t]
  | None => [Stderr ("SKIP not existing file: " +:+ f)]
  end.

(** The same for a commit: nothing for the empty identifier, and else the
    call of [git show] and the events of its paths in order. *)
Definition commit_events (gitDir : string) (d : gmap string File) (hash : string)
  : list Event :=
  if String.eqb hash "" then []
  else
    Exec (show_argv hash) ::
    concat (map (file_events gitDir d (timestamp hash)) (changed_paths hash)).

(** The final disk of a run of [logWalk] in a fresh process. *)
Definition disk_after_run (gitDir : string) (d : gmap string File) : gmap string File :=
  disk (logWalk gitDir (start d)).2.

End Gitime.

(** ** Sample worlds

    Worlds to run the program in: the dates [time.Parse] accepts are given
    by a table, times are seconds since the epoch, [path.Join] is the
    concatenation with a slash that it is on clean operands, and [git]
    answers from a table of outputs. *)

Definition nl : string := String newline "".

(** Lines, each ended by a newline, as [git] prints them. *)
Definition unlines (lines : list string) : string :=
  fold_right (fun line rest => line +:+ nl +:+ rest) "" lines.

Definition ok (out : string) : CmdResult := {| cmd_out := out; cmd_failed := false |}.
Definition failed (out : string) : CmdResult := {| cmd_out := out; cmd_failed := true |}.

Fixpoint assoc {A} (k : string) (table : list (string * A)) : option A :=
  match table with
  | [] => None
  | (k', v) :: table' => if String.eqb k k' then Some v else assoc k table'
  end.

Definition table_world (dates : list (string * Z)) (log : CmdResult)
    (shows : list (string * CmdResult)) : World Z :=
  {| time_zero := (-62135596800)%Z;
     time_Parse := fun _ value => assoc value dates;
     path_Join := fun dir name => dir +:+ "/" +:+ name;
     run_command := fun argv =>
       match argv with
       | [_; sub; _] =>
           if String.eqb sub "log" then log else failed "usage"
       | [_; sub; _; _; hash] =>
           if String.eqb sub "show" then
             default (failed ("fatal: bad object " +:+ hash)) (assoc hash shows)
           else failed "usage"
       | _ => failed "usage"
       end;
     os_Getwd := inl "/repo";
     path_error := fun _ => None |}.

(** The two commits of the end-to-end scenario of the specification. *)
Definition dateA : string := "Sun Jan 1 10:00:00 2023 +0000".
Definition dateB : string := "Wed Feb 1 12:00:00 2023 +0000".
Definition timeA : Z := 1672567200.
Definition timeB : Z := 1675252800.

(** [git log] prints the newest commit first. *)
Definition two_commits : World Z :=
  table_world [(dateA, timeA); (dateB, timeB)]
    (ok (unlines ["commitB"; "commitA"]))
    [("commitA", ok (unlines [dateA; ""; "x.txt"]));
     ("commitB", ok (unlines [dateB; ""; "x.txt"; "y.txt"]))].

(** The same history listed oldest first. *)
Definition two_commits_reversed : World Z :=
  table_world [(dateA, timeA); (dateB, timeB)]
    (ok (unlines ["commitA"; "commitB"]))
    [("commitA", ok (unlines [dateA; ""; "x.txt"]));
     ("commitB", ok (unlines [dateB; ""; "x.txt"; "y.txt"]))].

(** A history whose second commit has a date line not in the layout. *)
Definition bad_date : World Z :=
  table_world [(dateA, timeA); (dateB, timeB)]
    (ok (unlines ["commitB"; "commitX"; "commitA"]))
    [("commitA", ok (unlines [dateA; ""; "x.txt"]));
     ("commitB", ok (unlines [dateB; ""; "x.txt"; "y.txt"]));
     ("commitX", ok (unlines ["2023-01-15 09:30:00 +0000"; ""; "x.txt"; "z.txt"]))].

(** A repository whose history lists nothing but the final newline. *)
Definition empty_history : World Z :=
  table_world [] (ok nl) [].

(** A file checked out a moment ago, whose times may be set. *)
Definition fresh {Time} (t : Time) : File :=
  {| atime := t; mtime := t; utime_err := None |}.

Definition checkout_time : Z := 1700000000.

(** A work tree with both files, and one where [y.txt] was deleted. *)
Definition tree_xy : gmap string (@File Z) :=
  <["/repo/x.txt" := fresh checkout_time]> (<["/repo/y.txt" := fresh checkout_time]> ∅).

Definition tree_x : gmap string (@File Z) :=
  <["/repo/x.txt" := fresh checkout_time]> ∅.



(** * The historical path: [mainFilesWalk] and [filesWalk]

    The second strategy of [gitime.go], kept in the source and not called
    from [main]: list the files of the project, and for each file ask [git]
    for its last revision and for the date of that revision. *)

(** ** strings.Trim, bytes.IndexAny and slicing *)

(** The byte [c] is one of [chars]. *)
Fixpoint byte_in (c : ascii) (chars : string) : bool :=
  match chars with
  | EmptyString => false
  | String c' rest => Ascii.eqb c c' || byte_in c rest
  end.

(** [strings.TrimLeft(s, cutset)] and [strings.TrimRight(s, cutset)], for
    a cutset of one-byte characters. *)
Fixpoint strings_TrimLeft (s cutset : string) : string :=
  match s with
  | EmptyString => EmptyString
  | String c rest => if byte_in c cutset then strings_TrimLeft rest cutset else s
  end.

Fixpoint strings_TrimRight (s cutset : string) : string :=
  match s with
  | EmptyString => EmptyString
  | String c rest =>
      match strings_TrimRight rest cutset with
      | EmptyString => if byte_in c cutset then EmptyString else String c EmptyString
      | kept => String c kept
      end
  end.

(** [strings.Trim(s, cutset)]: [s] without the leading and trailing bytes
    that are in [cutset]. *)
Definition strings_Trim (s cutset : string) : string :=
  strings_TrimRight (strings_TrimLeft s cutset) cutset.

(** [bytes.IndexAny(s, chars)]: the index of the first byte of [s] that is
    in [chars], or -1. *)
Fixpoint bytes_IndexAny (s chars : string) : Z :=
  match s with
  | EmptyString => (-1)%Z
  | String c rest =>
      if byte_in c chars then 0%Z
      else
        let i := bytes_IndexAny rest chars in
        if (i =? -1)%Z then (-1)%Z else (1 + i)%Z
  end.

(** [s[:idx]] *)
Definition slice_to (s : string) (idx : Z) : string :=
  String.substring 0 (Z.to_nat idx) s.

(** [strings.Join(pieces, "\n")], the inverse of the split on newlines. *)
Fixpoint join_lines (pieces : list string) : string :=
  match pieces with
  | [] => EmptyString
  | [piece] => piece
  | piece :: rest => piece +:+ nl +:+ join_lines rest
  end.

(** What the historical path needs of the host besides the [World]. *)
Class Host : Type := {
  (** [os.Args] *)
  os_Args : list string;
  (** [filepath.ToSlash(path)] *)
  filepath_ToSlash : string -> string;
  (** [path.Join(elem)], with the one element *)
  path_Join1 : string -> string
}.

Section FilesWalk.

Context {Time : Type} {W : World Time} {H : Host}.

Notation "x <- m ;; k" := (bind m (fun x => k))
  (at level 20, m at level 99, k at level 200, only parsing).
Notation "' p <- m ;; k" := (bind m (fun p => k))
  (at level 20, p pattern, m at level 99, k at level 200, only parsing).
Notation "m ;;; k" := (bind m (fun _ => k))
  (at level 99, k at level 200, only parsing, right associativity).

Definition layout_iso : string := "2006-01-02 15:04:05 -0700".

(** Lists all files in GIT project. *)
Definition gitListFiles (gitDir : string) : M (list string * option string) :=
  r <- CombinedOutput ["git"; "--git-dir=" +:+ gitDir; "ls-files"] ;;
  if cmd_failed r then ret ([], Some (cmd_out r))
  else ret (strings_Split (cmd_out r) newline, None).

(** Find last revision for given file. *)
Definition gitFileRevision (gitDir gitTreeDir f : string) : M (string * option string) :=
  r <- CombinedOutput ["git"; "rev-list"; "-n"; "1"; "HEAD"; filepath_ToSlash f] ;;
  if cmd_failed r then ret ("", Some (cmd_out r))
  else ret (strings_Trim (cmd_out r) nl, None).

(** Parses given time of commit. *)
Definition gitCommitTime (gitDir gitTreeDir hash : string) : M (Time * option string) :=
  r <- CombinedOutput ["git"; "show"; "--pretty=format:%ai"; hash] ;;
  if cmd_failed r then ret (time_zero, Some (cmd_out r))
  else
    let out := cmd_out r in
    let idx := bytes_IndexAny out nl in
    if (idx =? -1)%Z then
      ret (time_zero, Some ("Could not separate date from this output:" +:+ nl +:+ out))
    else
      match time_Parse layout_iso (slice_to out idx) with
      | Some t => ret (t, None)
      | None =>
          ret (time_zero,
               Some ("Could not understand this time stamp: " +:+ slice_to out idx))
      end.

(** Get file list then for each file find latest revision and mtime. *)
Definition filesWalk (gitDir gitTreeDir : string) : M unit :=
  '(fs, err) <- gitListFiles gitDir ;;
  match err with
  | Some e => Fprintf_Stderr "Error listing git files: " e ;;; os_Exit 1
  | None => ret tt
  end ;;;
  for_range fs (fun f =>
    if String.eqb f "" then ret tt
    else
      let fpath := path_Join gitTreeDir f in
      missing <- os_Stat_IsNotExist fpath ;;
      if missing : bool then ret tt
      else
        '(rev, err) <- gitFileRevision gitDir gitTreeDir f ;;
        match err with
        | Some e => Fprintf_Stderr "Error reading file revision: " e ;;; os_Exit 1
        | None => ret tt
        end ;;;
        '(mtime, err) <- gitCommitTime gitDir gitTreeDir rev ;;
        match err with
        | Some e => Fprintf_Stderr "Error reading revision info: " e ;;; os_Exit 1
        | None => ret tt
        end ;;;
        err <- os_Chtimes fpath mtime mtime ;;
        match err with
        | Some e => Fprintf_Stderr "Error changing file mtime: " e ;;; os_Exit 1
        | None => ret tt
        end).

(** Kept for historical purposes. *)
Definition mainFilesWalk : M unit :=
  (if negb (length os_Args =? 2)%nat
   then Fprintf_Stderr "Provide git directory as argument" "" ;;; os_Exit 1
   else ret tt) ;;;
  arg <- index os_Args 1 ;;
  let gitDir := path_Join arg ".git" in
  missing <- os_Stat_IsNotExist gitDir ;;
  (if missing : bool
   then Fprintf_Stderr "GIT directory doesn't exist: " gitDir ;;; os_Exit 1
   else ret tt) ;;;
  arg <- index os_Args 1 ;;
  let gitTreeDir := path_Join1 arg in
  missing <- os_Stat_IsNotExist gitTreeDir ;;
  (if missing : bool
   then Fprintf_Stderr "GIT working tree directory doesn't exist: " gitTreeDir ;;; os_Exit 1
   else ret tt) ;;;
  filesWalk gitDir gitTreeDir.

(** ** The pieces of the historical path, named *)

Definition ls_argv (gitDir : string) : list string :=
  ["git"; "--git-dir=" +:+ gitDir; "ls-files"].

Definition rev_argv (f : string) : list string :=
  ["git"; "rev-list"; "-n"; "1"; "HEAD"; filepath_ToSlash f].

Definition ai_argv (hash : string) : list string :=
  ["git"; "show"; "--pretty=format:%ai"; hash].

(** The names [git ls-files] yields when it succeeds. *)
Definition listed_files (gitDir : string) : list string :=
  strings_Split (cmd_out (run_command (ls_argv gitDir))) newline.

(** What [gitFileRevision] and [gitCommitTime] return. *)
Definition revision_record (f : string) : string * option string :=
  let r := run_command (rev_argv f) in
  if cmd_failed r then ("", Some (cmd_out r)) else (strings_Trim (cmd_out r) nl, None).

Definition time_record (hash : string) : Time * option string :=
  let r := run_command (ai_argv hash) in
  if cmd_failed r then (time_zero, Some (cmd_out r))
  else
    let idx := bytes_IndexAny (cmd_out r) nl in
    if (idx =? -1)%Z then
      (time_zero,
       Some ("Could not separate date from this output:" +:+ nl +:+ cmd_out r))
    else
      match time_Parse layout_iso (slice_to (cmd_out r) idx) with
      | Some t => (t, None)
      | None =>
          (time_zero,
           Some ("Could not understand this time stamp: " +:+ slice_to (cmd_out r) idx))
      end.

(** The body of the loop of [filesWalk]. *)
Definition stamp_file (gitDir gitTreeDir : string) (f : string) : M unit :=
  if String.eqb f "" then ret tt
  else
    let fpath := path_Join gitTreeDir f in
    missing <- os_Stat_IsNotExist fpath ;;
    if missing : bool then ret tt
    else
      '(rev, err) <- gitFileRevision gitDir gitTreeDir f ;;
      match err with
      | Some e => Fprintf_Stderr "Error reading file revision: " e ;;; os_Exit 1
      | None => ret tt
      end ;;;
      '(mtime, err) <- gitCommitTime gitDir gitTreeDir rev ;;
      match err with
      | Some e => Fprintf_Stderr "Error reading revision info: " e ;;; os_Exit 1
      | None => ret tt
      end ;;;
      err <- os_Chtimes fpath mtime mtime ;;
      match err with
      | Some e => Fprintf_Stderr "Error changing file mtime: " e ;;; os_Exit 1
      | None => ret tt
      end.

(** The time [filesWalk] gives to the file named [f]: the date of the
    revision [git rev-list] names for it. *)
Definition file_time (f : string) : Time := (time_record (revision_record f).1).1.

(** What [filesWalk] does for the name [f] in a run that returns, on the
    disk [d]: nothing for the empty name, the existence check alone for a
    name that is not on disk, and for a file on disk the check, the two
    questions to [git] and the write of the times. *)
Definition stamp_events (gitTreeDir : string) (d : gmap string (@File Time)) (f : string)
  : list (@Event Time) :=
  if String.eqb f "" then []
  else
    let p := path_Join gitTreeDir f in
    match d !! p with
    | None => [Stat p]
    | Some _ =>
        [Stat p; Exec (rev_argv f); Exec (ai_argv (revision_record f).1);
         Chtimes p (file_time f) (file_time f)]
    end.

(** A name for which both questions to [git] are answered. *)
Definition answered (f : string) : Prop :=
  (revision_record f).2 = None /\ (time_record (revision_record f).1).2 = None.

End FilesWalk.

(** ** More views of a trace *)

(** The argument vectors of the subprocesses of a trace, in order. *)
Definition execs {Time} (tr : list (@Event Time)) : list (list string) :=
  omap (fun e => match e with Exec argv => Some argv | _ => None end) tr.

(** The byte [c] occurs in [s]. *)
Fixpoint occurs (c : ascii) (s : string) : Prop :=
  match s with
  | EmptyString => False
  | String c' rest => c' = c \/ occurs c rest
  end.

(** The time stamp writes of the segment [seg] of a trace are checked: a
    call of [os.Chtimes] sets both times to the same value, on a path that
    is not reported missing on the disk [d] (it is there, or it is out of
    reach for another reason than not being there), right after the
    existence check of that path. *)
Definition checked_writes {Time} {W : World Time}
    (d : gmap string (@File Time)) (seg : list (@Event Time)) : Prop :=
  forall i p a m,
    seg !! i = Some (Chtimes p a m) ->
    a = m /\ ~ reported_missing d p /\ exists j, i = S j /\ seg !! j = Some (Stat p).

Definition extends_checked {Time} {W : World Time} (st st' : @Proc Time) : Prop :=
  same_shape (disk st) (disk st')
  /\ exists seg, trace st' = trace st ++ seg /\ checked_writes (disk st) seg.

(** A sample host and a world that answers the questions of [filesWalk]:
    [x.txt] was last changed by commit B, [old.txt] is in the index and not
    on disk. *)
Definition unix_host : Host :=
  {| os_Args := ["gitime"; "/repo"];
     filepath_ToSlash := fun name => name;
     path_Join1 := fun elem => elem |}.

Definition files_world : World Z :=
  {| time_zero := (-62135596800)%Z;
     time_Parse := fun _ value =>
       assoc value [("2023-01-01 10:00:00 +0000", timeA);
                    ("2023-02-01 12:00:00 +0000", timeB)];
     path_Join := fun dir name => dir +:+ "/" +:+ name;
     run_command := fun argv =>
       match argv with
       | [_; _; sub] =>
           if String.eqb sub "ls-files" then ok (unlines ["old.txt"; "x.txt"; "y.txt"])
           else failed "usage"
       | [_; sub; _; hash] =>
           if String.eqb sub "show" then
             default (failed ("fatal: bad object " +:+ hash))
               (assoc hash
                  [("commitA", ok (unlines ["2023-01-01 10:00:00 +0000"; ""; "diff"]));
                   ("commitB", ok (unlines ["2023-02-01 12:00:00 +0000"; ""; "diff"]));
                   ("commitC", ok "2023-02-01 12:00:00 +0000")])
           else failed "usage"
       | [_; sub; _; _; _; name] =>
           if String.eqb sub "rev-list" then
             default (failed ("fatal: ambiguous argument " +:+ name))
               (assoc name [("x.txt", ok (unlines ["commitB"]));
                            ("y.txt", ok (unlines ["commitB"]));
                            ("old.txt", ok (unlines ["commitA"]))])
           else failed "usage"
       | _ => failed "usage"
       end;
     os_Getwd := inl "/repo";
     path_error := fun _ => None |}.

(** The work tree with its directories. *)
Definition tree_repo : gmap string (@File Z) :=
  <["/repo" := fresh checkout_time]>
    (<["/repo/.git" := fresh checkout_time]> tree_xy).

(** A directory that is not a repository, and a process without a working
    directory. *)
Definition no_repository : World Z :=
  table_world [] (failed "fatal: not a git repository") [].

Definition no_cwd : World Z :=
  {| time_zero := 0%Z;
     time_Parse := fun _ _ => None;
     path_Join := fun dir name => dir +:+ "/" +:+ name;
     run_command := fun _ => failed "";
     os_Getwd := inr "getwd: no such file or directory";
     path_error := fun _ => None |}.

(** The world [world], with the given errors for paths that are not on
    disk. *)
Definition out_of_reach (world : World Z) (errors : list (string * string)) : World Z :=
  {| time_zero := @time_zero Z world;
     time_Parse := @time_Parse Z world;
     path_Join := @path_Join Z world;
     run_command := @run_command Z world;
     os_Getwd := @os_Getwd Z world;
     path_error := fun p => assoc p errors |}.

(** A history in which the directory [docs] of commit A became the regular
    file [docs] in commit B, which also changed [x.txt]: [docs/readme.txt]
    is not in the work tree, and a look at it ends with "not a directory". *)
Definition dir_became_file : World Z :=
  out_of_reach
    (table_world [(dateA, timeA); (dateB, timeB)]
       (ok (unlines ["commitB"; "commitA"]))
       [("commitA", ok (unlines [dateA; ""; "docs/readme.txt"]));
        ("commitB", ok (unlines [dateB; ""; "docs"; "docs/readme.txt"; "x.txt"]))])
    [("/repo/docs/readme.txt", "not a directory")].

Definition tree_docs : gmap string (@File Z) :=
  <["/repo/docs" := fresh checkout_time]> tree_x.

(** A work tree where [y.txt] belongs to someone else, and one with a file
    that no commit of the sample history lists. *)
Definition tree_locked : gmap string (@File Z) :=
  <["/repo/y.txt" := {| atime := checkout_time; mtime := checkout_time;
                        utime_err := Some "chtimes /repo/y.txt: operation not permitted" |}]>
    tree_x.


(** * Properties *)

Section Properties.

Context {Time : Type} {W : World Time}.

Implicit Types (st : @Proc Time) (d : gmap string (@File Time)) (tr seg : list (@Event Time)).
Implicit Types (file : @File Time) (w : string * Time) (ws : list (string * Time)).

(** ** The monad and the loops *)


Lemma for_range_cons {A} (x : A) xs body st :
  for_range (x :: xs) body st =
  match body x st with
  | (Ret _, st1) => for_range xs body st1
  | (Exit code, st1) => (Exit code, st1)
  | (Panic msg, st1) => (Panic msg, st1)
  end.
Proof. reflexivity. Qed.

Lemma for_range_app {A} (xs ys : list A) body st :
  for_range (xs ++ ys) body st =
  bind (for_range xs body) (fun _ => for_range ys body) st.
Proof.
  revert st. induction xs as [| x xs IH]; intros st; [reflexivity |].
  simpl. unfold bind. destruct (body x st) as [[[] | code | msg] st1]; try reflexivity.
  rewrite IH. reflexivity.
Qed.

(** A relation between the state before and the state after that every
    iteration establishes, and that is reflexive and transitive, holds of
    the loop, however it ends. *)
Lemma for_range_rel {A} (R : Proc -> Proc -> Prop) (xs : list A) body :
  (forall st, R st st) ->
  (forall st1 st2 st3, R st1 st2 -> R st2 st3 -> R st1 st3) ->
  (forall x st, x ∈ xs -> R st (body x st).2) ->
  forall st, R st (for_range xs body st).2.
Proof.
  intros Hrefl Htrans. induction xs as [| x xs IH]; intros Hbody st; [apply Hrefl |].
  rewrite for_range_cons.
  pose proof (Hbody x st (list_elem_of_here _ _)) as Hx.
  destruct (body x st) as [[[] | code | msg] st1]; simpl in Hx; [| done | done].
  eapply Htrans; [exact Hx |]. apply IH. intros y st' Hy. apply Hbody. by right.
Qed.

(** ** strings.Split *)

Lemma strings_Split_cons s sep :
  exists piece pieces, strings_Split s sep = piece :: pieces.
Proof.
  induction s as [| c s IH]; simpl; [eauto |].
  destruct (Ascii.eqb c sep); [eauto |].
  destruct IH as (piece & pieces & ->). eauto.
Qed.

(** ** The calls of the program, evaluated *)

Lemma after_after st evs1 evs2 : after (after st evs1) evs2 = after st (evs1 ++ evs2).
Proof. unfold after. simpl. by rewrite <- app_assoc. Qed.

Lemma after_nil st : after st [] = st.
Proof. destruct st. unfold after. simpl. by rewrite app_nil_r. Qed.

Lemma update_file_run gitDir t f st :
  update_file gitDir t f st =
  let p := path_Join gitDir f in
  match disk st !! p with
  | None =>
      match path_error p with
      | None =>
          (Ret tt,
           after st [progress t f; Stat p; Stderr ("SKIP not existing file: " +:+ f)])
      | Some e =>
          (Exit 1,
           after st [progress t f; Stat p; Chtimes p t t;
                     Stderr ("Error changing file mtime: " +:+
                             "chtimes " +:+ p +:+ ": " +:+ e)])
      end
  | Some file =>
      match utime_err file with
      | None =>
          (Ret tt,
           {| disk := <[p := touched t t file]> (disk st);
              trace := trace st ++ [progress t f; Stat p; Chtimes p t t] |})
      | Some e =>
          (Exit 1,
           after st [progress t f; Stat p; Chtimes p t t;
                     Stderr ("Error changing file mtime: " +:+ e)])
      end
  end.
Proof.
  unfold update_file, fmt_Println, os_Stat_IsNotExist, os_Chtimes, Fprintf_Stderr,
    os_Exit, bind, emit, ret, after, progress. simpl.
  destruct (disk st !! path_Join gitDir f) as [file |] eqn:E.
  - rewrite bool_decide_eq_false_2 by (by intros [? _]). simpl. rewrite E.
    destruct (utime_err file); simpl; repeat rewrite <- app_assoc; reflexivity.
  - destruct (path_error (path_Join gitDir f)) as [e |] eqn:Ep.
    + rewrite bool_decide_eq_false_2 by (by intros [_ ?]). simpl. rewrite E. simpl.
      repeat rewrite <- app_assoc. reflexivity.
    + rewrite bool_decide_eq_true_2 by done. simpl.
      repeat rewrite <- app_assoc. reflexivity.
Qed.

(** The counting loop of [getCommitFiles] collects the non-empty lines
    from index [i] on. *)
Lemma collect_loop (lines : list string) n i (acc : list string) st :
  i + n = length lines ->
  for_acc (seq i n)
    (fun i files =>
       bind (index lines i) (fun line =>
         if String.eqb line "" then ret files else ret (files ++ [line])))
    acc st
  = (Ret (acc ++ filter (fun line => line <> "") (drop i lines)), st).
Proof.
  revert i acc. induction n as [| n IH]; intros i acc Hlen.
  - simpl. rewrite drop_ge by lia. by rewrite filter_nil, app_nil_r.
  - destruct (lookup_lt_is_Some_2 lines i) as [line Hline]; [lia |].
    simpl. unfold bind at 1. unfold index at 1, bind at 1. rewrite Hline. unfold ret at 1.
    rewrite (drop_S _ _ _ Hline).
    destruct (String.eqb_spec line "") as [-> | Hne]; unfold ret at 1.
    + rewrite IH by lia. rewrite filter_cons_False; [done | by intros []].
    + rewrite IH by lia. rewrite filter_cons_True by done. by rewrite <- app_assoc.
Qed.

Lemma getCommitFiles_run hash st :
  getCommitFiles hash st = (Ret (commit_record hash), after st [Exec (show_argv hash)]).
Proof.
  unfold getCommitFiles, commit_record, CombinedOutput, date_line, detail_lines, paths_of.
  unfold bind at 1. unfold bind at 1. unfold emit, ret at 1. fold (show_argv hash).
  fold (after st [Exec (show_argv hash)]).
  destruct (cmd_failed (run_command (show_argv hash))); [reflexivity |].
  destruct (strings_Split_cons (cmd_out (run_command (show_argv hash))) newline)
    as (line0 & rest & Hsplit).
  rewrite Hsplit. unfold bind at 1. unfold index at 1.
  change ((line0 :: rest) !! 0) with (Some line0). unfold ret at 1. cbv beta iota.
  simpl hd. replace (length (line0 :: rest) - 1) with (length rest) by (simpl; lia).
  pose proof (collect_loop (line0 :: rest) (length rest) 1 [] (after st [Exec (show_argv hash)]))
    as Hloop.
  specialize (Hloop eq_refl).
  destruct (time_Parse layout line0); unfold bind at 1; rewrite Hloop; reflexivity.
Qed.

Lemma getCommits_run st :
  getCommits st =
  (Ret (if cmd_failed (run_command log_argv)
        then ([], Some (cmd_out (run_command log_argv)))
        else (commit_ids, None)),
   after st [Exec log_argv]).
Proof.
  unfold getCommits, CombinedOutput, commit_ids, bind, emit, ret. fold log_argv.
  destruct (cmd_failed (run_command log_argv)); reflexivity.
Qed.

Lemma walk_commit_run gitDir hash st :
  walk_commit gitDir hash st =
  if String.eqb hash "" then (Ret tt, st)
  else
    match retrieval_error hash with
    | Some e =>
        (Exit 1, after st [Exec (show_argv hash);
                           Stderr ("Error listing git commit files: " +:+ e)])
    | None =>
        for_range (changed_paths hash) (update_file gitDir (timestamp hash))
          (after st [Exec (show_argv hash)])
    end.
Proof.
  unfold walk_commit. destruct (String.eqb hash ""); [reflexivity |].
  unfold bind at 1. rewrite getCommitFiles_run.
  unfold retrieval_error, changed_paths, timestamp.
  destruct (commit_record hash) as [[t fs] [e |]]; simpl.
  - unfold bind, Fprintf_Stderr, emit, os_Exit, after. simpl.
    by rewrite <- app_assoc.
  - reflexivity.
Qed.

Lemma logWalk_unfold gitDir :
  logWalk gitDir =
  bind getCommits (fun '(hashes, err) =>
    bind match err with
         | Some e => bind (Fprintf_Stderr "Error listing git commits: " e) (fun _ => os_Exit 1)
         | None => ret tt
         end
      (fun _ => for_range hashes (walk_commit gitDir))).
Proof. reflexivity. Qed.

Lemma logWalk_run gitDir st :
  logWalk gitDir st =
  if cmd_failed (run_command log_argv)
  then (Exit 1, after st
                  [Exec log_argv;
                   Stderr ("Error listing git commits: " +:+ cmd_out (run_command log_argv))])
  else for_range commit_ids (walk_commit gitDir) (after st [Exec log_argv]).
Proof.
  rewrite logWalk_unfold. unfold bind at 1. rewrite getCommits_run.
  destruct (cmd_failed (run_command log_argv)).
  - unfold bind, Fprintf_Stderr, emit, os_Exit, after. simpl. by rewrite <- app_assoc.
  - reflexivity.
Qed.

Lemma for_range_clean {A} (xs : list A) body :
  (forall x st, clean (body x st).1) -> forall st, clean (for_range xs body st).1.
Proof.
  intros Hbody. induction xs as [| x xs IH]; intros st; [by left |].
  rewrite for_range_cons. pose proof (Hbody x st) as Hx.
  destruct (body x st) as [[[] | code | msg] st1]; simpl in *; [apply IH | done | done].
Qed.

Lemma update_file_clean gitDir t f st : clean (update_file gitDir t f st).1.
Proof.
  rewrite update_file_run. simpl.
  destruct (disk st !! path_Join gitDir f) as [file |];
    [| destruct (path_error _); [by right | by left]].
  destruct (utime_err file); [by right | by left].
Qed.

Lemma walk_commit_clean gitDir hash st : clean (walk_commit gitDir hash st).1.
Proof.
  rewrite walk_commit_run. destruct (String.eqb hash ""); [by left |].
  destruct (retrieval_error hash); [by right |].
  apply for_range_clean. intros. apply update_file_clean.
Qed.

Lemma logWalk_clean gitDir st : clean (logWalk gitDir st).1.
Proof.
  rewrite logWalk_run. destruct (cmd_failed (run_command log_argv)); [by right |].
  apply for_range_clean. intros. apply walk_commit_clean.
Qed.

(** [main] is [logWalk] on the working directory. *)
Lemma main_run pwd st : os_Getwd = inl pwd -> main st = logWalk pwd st.
Proof. unfold main. by intros ->. Qed.

Lemma main_clean st : clean (main st).1.
Proof.
  unfold main. destruct os_Getwd as [pwd | e]; [apply logWalk_clean | by right].
Qed.

Lemma retrieval_error_parse hash :
  cmd_failed (run_command (show_argv hash)) = false ->
  time_Parse layout (date_line hash) = None ->
  retrieval_error hash =
  Some ("Could not understand this time stamp: " +:+ date_line hash).
Proof. unfold retrieval_error, commit_record. by intros -> ->. Qed.

(** ** The detail retriever *)

(** C7: when [git show] succeeds, the paths [getCommitFiles] returns are the
    lines of the output after the first, verbatim and in their order, less
    the empty lines: no line is changed, dropped for another reason or
    merged with an equal one, and the empty string is never a path. *)
Theorem getCommitFiles_paths hash st :
  cmd_failed (run_command (show_argv hash)) = false ->
  exists date err,
    (getCommitFiles hash st).1 =
      Ret (date,
           filter (fun line => line <> "")
             (drop 1 (strings_Split (cmd_out (run_command (show_argv hash))) newline)),
           err)
    /\ "" ∉ changed_paths hash.
Proof.
  intros Hok. rewrite getCommitFiles_run. unfold changed_paths, commit_record.
  rewrite Hok. simpl.
  destruct (time_Parse layout (date_line hash)); simpl; do 2 eexists;
    (split; [reflexivity |]); unfold paths_of; rewrite list_elem_of_filter;
    by intros [? _].
Qed.

(** C10: splitting any text on newlines gives at least one piece, so that
    the read of the first line is in range; [getCommits] and
    [getCommitFiles] return on every output of the subprocess, without a
    panic or an exit, and their error value is set exactly when the
    subprocess failed or the date line was not understood. *)
Theorem parsing_is_total (out : string) hash st :
  1 <= length (strings_Split out newline)
  /\ (exists hashes err,
        getCommits st = (Ret (hashes, err), after st [Exec log_argv])
        /\ (err = None <-> cmd_failed (run_command log_argv) = false))
  /\ (exists date files err,
        getCommitFiles hash st = (Ret (date, files, err), after st [Exec (show_argv hash)])
        /\ (err = None <->
            cmd_failed (run_command (show_argv hash)) = false
            /\ is_Some (time_Parse layout (date_line hash)))).
Proof.
  split; [| split].
  - destruct (strings_Split_cons out newline) as (piece & pieces & ->). simpl. lia.
  - rewrite getCommits_run. destruct (cmd_failed (run_command log_argv));
      do 2 eexists; (split; [reflexivity |]); split; done.
  - rewrite getCommitFiles_run. unfold commit_record.
    destruct (cmd_failed (run_command (show_argv hash))).
    + do 3 eexists. split; [reflexivity |]. split; [done | by intros [? _]].
    + destruct (time_Parse layout (date_line hash)) as [t |] eqn:E;
        do 3 eexists; (split; [reflexivity |]).
      * split; [intros _; split; [done | by eexists] | done].
      * split; [done | intros [_ [? ?]]; done].
Qed.

(** ** Errors of the detail retrieval *)

(** C9: when [getCommitFiles] returns an error for a commit, whatever the
    list of paths [fs] it returns with it, the loop over the commits ends
    the process with status 1 after the message: the disk is as it was, and
    there is no progress line, existence check or time stamp write for the
    paths of that commit, nor anything for the commits after it. *)
Theorem retrieval_error_stops_before_files gitDir h rest st t fs e st1 :
  h <> "" ->
  getCommitFiles h st = (Ret (t, fs, Some e), st1) ->
  for_range (h :: rest) (walk_commit gitDir) st =
  (Exit 1,
   {| disk := disk st;
      trace := trace st ++ [Exec (show_argv h);
                            Stderr ("Error listing git commit files: " +:+ e)] |}).
Proof.
  intros Hne Hget. rewrite for_range_cons, walk_commit_run.
  apply String.eqb_neq in Hne. rewrite Hne.
  rewrite getCommitFiles_run in Hget. unfold retrieval_error.
  injection Hget as Hrec _. rewrite Hrec. reflexivity.
Qed.

(** C3: when the date line of a commit of the history is not in the layout,
    the run ends with status 1 and a disk that is the one left by the
    commits enumerated before it: nothing is written for the paths of that
    commit or of a later one.  When the commits before it were walked
    without a fatal error, the run ends on the message of the time stamp
    that was not understood. *)
Theorem malformed_date_is_fatal gitDir d hs1 h hs2 :
  cmd_failed (run_command log_argv) = false ->
  commit_ids = hs1 ++ h :: hs2 ->
  h <> "" ->
  cmd_failed (run_command (show_argv h)) = false ->
  time_Parse layout (date_line h) = None ->
  let before := for_range hs1 (walk_commit gitDir) (listed d) in
  let run := logWalk gitDir (start d) in
  exit_status run.1 = 1%Z
  /\ disk run.2 = disk before.2
  /\ (before.1 = Ret tt ->
      run = (Exit 1,
             after before.2
               [Exec (show_argv h);
                Stderr ("Error listing git commit files: " +:+
                        "Could not understand this time stamp: " +:+ date_line h)])).
Proof.
  intros Hlog Hids Hne Hshow Hparse before run.
  assert (Hrun : run = bind (for_range hs1 (walk_commit gitDir))
                        (fun _ => for_range (h :: hs2) (walk_commit gitDir)) (listed d)).
  { subst run. rewrite logWalk_run, Hlog, Hids. apply for_range_app. }
  assert (Hh : forall st, for_range (h :: hs2) (walk_commit gitDir) st =
            (Exit 1, after st [Exec (show_argv h);
                Stderr ("Error listing git commit files: " +:+
                        "Could not understand this time stamp: " +:+ date_line h)])).
  { intros st. rewrite for_range_cons, walk_commit_run.
    apply String.eqb_neq in Hne. rewrite Hne.
    by rewrite (retrieval_error_parse h Hshow Hparse). }
  unfold bind in Hrun. fold before in Hrun.
  pose proof (for_range_clean hs1 (walk_commit gitDir) (walk_commit_clean gitDir) (listed d))
    as Hclean. fold before in Hclean.
  destruct before as [[[] | code | msg] st1]; simpl in *.
  - rewrite Hh in Hrun. rewrite Hrun. simpl. done.
  - destruct Hclean as [? | [= ->]]; [done |]. rewrite Hrun. simpl. done.
  - destruct Hclean as [? | ?]; done.
Qed.

(** ** Empty history *)

(** C5: when the enumeration succeeds and yields no identifier but empty
    strings (the one empty string of an empty output, or of an output that
    is a newline), the run returns, so with exit status 0, the disk is
    untouched and the only thing done is the one call of [git log]: no
    [git show], no time stamp write. *)
Theorem empty_history_is_noop gitDir d :
  cmd_failed (run_command log_argv) = false ->
  (forall h, h ∈ commit_ids -> h = "") ->
  logWalk gitDir (start d) = (Ret tt, {| disk := d; trace := [Exec log_argv] |})
  /\ exit_status (logWalk gitDir (start d)).1 = 0%Z.
Proof.
  intros Hlog Hempty. rewrite logWalk_run, Hlog.
  change (after (start d) [Exec log_argv]) with ({| disk := d; trace := [Exec log_argv] |}).
  generalize ({| disk := d; trace := [Exec log_argv] |}) as st.
  induction commit_ids as [| h hs IH]; intros st; [done |].
  rewrite for_range_cons, walk_commit_run.
  rewrite (Hempty h) by left. simpl String.eqb. cbv iota.
  apply IH. intros h' Hh'. apply Hempty. by right.
Qed.

(** ** What a run does to the disk *)

Lemma disk_after st evs : disk (after st evs) = disk st.
Proof. reflexivity. Qed.

Lemma same_shape_refl d : same_shape d d.
Proof. by intros p. Qed.

Lemma same_shape_trans d1 d2 d3 : same_shape d1 d2 -> same_shape d2 d3 -> same_shape d1 d3.
Proof. intros H12 H23 p. by rewrite H12. Qed.

Lemma same_shape_sym d1 d2 : same_shape d1 d2 -> same_shape d2 d1.
Proof. intros H p. by rewrite H. Qed.

Lemma same_shape_None d1 d2 p : same_shape d1 d2 -> d1 !! p = None -> d2 !! p = None.
Proof.
  intros H Hp. specialize (H p). rewrite Hp in H. by destruct (d2 !! p).
Qed.

Lemma same_shape_Some d1 d2 p file :
  same_shape d1 d2 -> d1 !! p = Some file ->
  exists file', d2 !! p = Some file' /\ utime_err file' = utime_err file.
Proof.
  intros H Hp. specialize (H p). rewrite Hp in H.
  destruct (d2 !! p) as [file' |]; [| done]. injection H as H. eauto.
Qed.

Lemma same_shape_insert d p file t1 t2 :
  d !! p = Some file -> same_shape d (<[p := touched t1 t2 file]> d).
Proof.
  intros Hp q. destruct (decide (p = q)) as [<- | Hne].
  - by rewrite lookup_insert_eq, Hp.
  - by rewrite lookup_insert_ne.
Qed.

Lemma update_file_shape gitDir t f st :
  same_shape (disk st) (disk (update_file gitDir t f st).2).
Proof.
  rewrite update_file_run. simpl.
  destruct (disk st !! path_Join gitDir f) as [file |] eqn:E;
    [| destruct (path_error _); apply same_shape_refl].
  destruct (utime_err file); [apply same_shape_refl |]. by apply same_shape_insert.
Qed.

Lemma update_files_shape gitDir t fs st :
  same_shape (disk st) (disk (for_range fs (update_file gitDir t) st).2).
Proof.
  apply (for_range_rel (fun st st' => same_shape (disk st) (disk st'))).
  - intros. apply same_shape_refl.
  - intros. by eapply same_shape_trans.
  - intros. apply update_file_shape.
Qed.

Lemma walk_commit_shape gitDir h st :
  same_shape (disk st) (disk (walk_commit gitDir h st).2).
Proof.
  rewrite walk_commit_run. destruct (String.eqb h ""); [apply same_shape_refl |].
  destruct (retrieval_error h); [apply same_shape_refl |].
  apply (update_files_shape gitDir (timestamp h) (changed_paths h)
           (after st [Exec (show_argv h)])).
Qed.

Lemma walk_commits_shape gitDir hs st :
  same_shape (disk st) (disk (for_range hs (walk_commit gitDir) st).2).
Proof.
  apply (for_range_rel (fun st st' => same_shape (disk st) (disk st'))).
  - intros. apply same_shape_refl.
  - intros. by eapply same_shape_trans.
  - intros. apply walk_commit_shape.
Qed.

Lemma logWalk_shape gitDir st : same_shape (disk st) (disk (logWalk gitDir st).2).
Proof.
  rewrite logWalk_run. destruct (cmd_failed (run_command log_argv)); [apply same_shape_refl |].
  apply (walk_commits_shape gitDir commit_ids (after st [Exec log_argv])).
Qed.



(** ** Missing files *)

Lemma stampable_shape d1 d2 : same_shape d1 d2 -> stampable d1 -> stampable d2.
Proof.
  intros Hs H1 p file Hp.
  destruct (same_shape_Some d2 d1 p file (same_shape_sym _ _ Hs) Hp) as (file' & Hp' & He).
  rewrite <- He. by eapply H1.
Qed.

Lemma for_range_returns {A} (P : Proc -> Prop) (xs : list A) body :
  (forall x st, x ∈ xs -> P st -> (body x st).1 = Ret tt /\ P (body x st).2) ->
  forall st, P st -> (for_range xs body st).1 = Ret tt /\ P (for_range xs body st).2.
Proof.
  induction xs as [| x xs IH]; intros Hbody st HP; [done |].
  rewrite for_range_cons.
  destruct (Hbody x st (list_elem_of_here _ _) HP) as [Hx HPx].
  destruct (body x st) as [o st1]. simpl in Hx, HPx. subst o.
  apply IH; [| done]. intros y st' Hy. apply Hbody. by right.
Qed.

Lemma in_reach_shape d1 d2 ps : same_shape d1 d2 -> in_reach d1 ps -> in_reach d2 ps.
Proof.
  intros Hs H1 p Hp Hnone. apply (H1 p Hp).
  by apply (same_shape_None d2 d1 p (same_shape_sym _ _ Hs)).
Qed.

Lemma update_files_return gitDir t fs st :
  stampable (disk st) ->
  in_reach (disk st) (map (path_Join gitDir) fs) ->
  (for_range fs (update_file gitDir t) st).1 = Ret tt
  /\ stampable (disk (for_range fs (update_file gitDir t) st).2)
  /\ in_reach (disk (for_range fs (update_file gitDir t) st).2) (map (path_Join gitDir) fs).
Proof.
  intros Hst Hreach.
  apply (for_range_returns
           (fun st => stampable (disk st)
                      /\ in_reach (disk st) (map (path_Join gitDir) fs)));
    [| done].
  intros f st0 Hf [Hst0 Hreach0]. split.
  - rewrite update_file_run. simpl.
    destruct (disk st0 !! path_Join gitDir f) as [file |] eqn:E.
    + by rewrite (Hst0 _ _ E).
    + rewrite (Hreach0 (path_Join gitDir f)); [done | | done].
      apply list_elem_of_fmap. by exists f.
  - pose proof (update_file_shape gitDir t f st0) as Hshape. split.
    + by eapply stampable_shape.
    + by eapply in_reach_shape.
Qed.

(** ** Last write wins *)



(** ** Idempotence *)

Lemma touch_lookup w d p :
  touch w d !! p = (if decide (w.1 = p) then touched w.2 w.2 else id) <$> d !! p.
Proof.
  unfold touch. destruct (d !! w.1) as [file |] eqn:E.
  - destruct (decide (w.1 = p)) as [<- | Hne].
    + by rewrite lookup_insert_eq, E.
    + rewrite lookup_insert_ne by done. by destruct (d !! p).
  - destruct (decide (w.1 = p)) as [<- | Hne].
    + by rewrite E.
    + by destruct (d !! p).
Qed.

Lemma apply_writes_app ws1 ws2 d :
  apply_writes (ws1 ++ ws2) d = apply_writes ws2 (apply_writes ws1 d).
Proof. unfold apply_writes. apply fold_left_app. Qed.

Lemma apply_writes_lookup ws d p :
  apply_writes ws d !! p = restamp p ws <$> d !! p.
Proof.
  revert d. induction ws as [| w ws IH]; intros d.
  - simpl. by destruct (d !! p).
  - change (apply_writes (w :: ws) d) with (apply_writes ws (touch w d)).
    rewrite IH, touch_lookup. unfold restamp. simpl.
    destruct (d !! p) as [file |]; [| done]. simpl. f_equal.
    destruct (last_write p ws); destruct (decide (w.1 = p)); done.
Qed.

Lemma restamp_restamp p ws file : restamp p ws (restamp p ws file) = restamp p ws file.
Proof. unfold restamp. by destruct (last_write p ws). Qed.

Lemma apply_writes_idem ws d : apply_writes ws (apply_writes ws d) = apply_writes ws d.
Proof.
  apply map_eq. intros p. rewrite !apply_writes_lookup.
  destruct (d !! p) as [file |]; [| done]. simpl. by rewrite restamp_restamp.
Qed.

Lemma apply_writes_shape ws d : same_shape d (apply_writes ws d).
Proof.
  intros p. rewrite apply_writes_lookup. destruct (d !! p) as [file |]; [| done].
  simpl. unfold restamp. by destruct (last_write p ws).
Qed.

Lemma update_file_uniform gitDir t f : uniform (update_file gitDir t f).
Proof.
  intros st1 st2 Hshape. rewrite !update_file_run. simpl.
  destruct (disk st1 !! path_Join gitDir f) as [file1 |] eqn:E1.
  - destruct (same_shape_Some _ _ _ _ Hshape E1) as (file2 & E2 & Herr). rewrite E2, Herr.
    destruct (utime_err file1); simpl.
    + split; [done |]. by exists [].
    + split; [done |]. exists [(path_Join gitDir f, t)].
      unfold apply_writes, touch. simpl. by rewrite E1, E2.
  - rewrite (same_shape_None _ _ _ Hshape E1).
    destruct (path_error _); simpl; (split; [done |]); by exists [].
Qed.

Lemma for_range_uniform {A} (xs : list A) (body : A -> @M Time unit) :
  (forall x, uniform (body x)) -> uniform (for_range xs body).
Proof.
  intros Hbody. induction xs as [| x xs IH]; intros st1 st2 Hshape.
  - simpl. split; [done |]. by exists [].
  - rewrite !for_range_cons.
    destruct (Hbody x st1 st2 Hshape) as (Hout & ws1 & Hd1 & Hd2).
    destruct (body x st1) as [o1 st1'], (body x st2) as [o2 st2']. simpl in *. subst o2.
    destruct o1 as [[] | code | msg]; simpl; [| split; [done | by exists ws1] ..].
    assert (Hshape' : same_shape (disk st1') (disk st2')).
    { rewrite Hd1, Hd2.
      eapply same_shape_trans; [apply same_shape_sym, apply_writes_shape |].
      eapply same_shape_trans; [exact Hshape | apply apply_writes_shape]. }
    destruct (IH st1' st2' Hshape') as (Hout' & ws2 & Hd1' & Hd2').
    split; [done |]. exists (ws1 ++ ws2).
    by rewrite !apply_writes_app, <- Hd1, <- Hd2.
Qed.

Lemma walk_commit_uniform gitDir h : uniform (walk_commit gitDir h).
Proof.
  intros st1 st2 Hshape. rewrite !walk_commit_run.
  destruct (String.eqb h ""); [split; [done | by exists []] |].
  destruct (retrieval_error h); [split; [done | by exists []] |].
  apply (for_range_uniform (changed_paths h) (update_file gitDir (timestamp h))
           (update_file_uniform gitDir (timestamp h))
           (after st1 [Exec (show_argv h)]) (after st2 [Exec (show_argv h)])).
  exact Hshape.
Qed.

Lemma logWalk_uniform gitDir : uniform (logWalk gitDir).
Proof.
  intros st1 st2 Hshape. rewrite !logWalk_run.
  destruct (cmd_failed (run_command log_argv)); [split; [done | by exists []] |].
  apply (for_range_uniform commit_ids (walk_commit gitDir) (walk_commit_uniform gitDir)
           (after st1 [Exec log_argv]) (after st2 [Exec log_argv])).
  exact Hshape.
Qed.

(** C6: a second run, on the disk the first run left and with the same
    answers of [git], leaves every file with the times the first run gave
    it (the disk after two runs is the disk after one) and ends with the
    same outcome; this holds of the runs that a fatal error ends as well. *)
Theorem run_twice_is_run_once gitDir d :
  disk_after_run gitDir (disk_after_run gitDir d) = disk_after_run gitDir d
  /\ (logWalk gitDir (start (disk_after_run gitDir d))).1 = (logWalk gitDir (start d)).1.
Proof.
  unfold disk_after_run.
  pose proof (logWalk_shape gitDir (start d)) as Hshape.
  destruct (logWalk_uniform gitDir (start d)
              (start (disk (logWalk gitDir (start d)).2)) Hshape)
    as (Hout & ws & Hd1 & Hd2).
  split; [| done].
  simpl in Hd1, Hd2. rewrite Hd2. rewrite Hd1 at 1 2. apply apply_writes_idem.
Qed.

(** ** Progress lines *)


Lemma lookup_app_shift {A} (l1 l2 : list A) j : (l1 ++ l2) !! (length l1 + j) = l2 !! j.
Proof. rewrite lookup_app_r by lia. f_equal. lia. Qed.


















End Properties.

(** * The properties on the sample worlds *)

Section TwoCommits.

#[local] Existing Instance two_commits.

Lemma two_commits_ids : commit_ids = ["commitB"; "commitA"; ""].
Proof. reflexivity. Qed.

Lemma tree_x_stampable (p : string) (file : @File Z) :
  tree_x !! p = Some file -> utime_err file = None.
Proof.
  unfold tree_x. intros H. apply lookup_insert_Some in H as [[_ <-] | [_ H]]; [done |].
  by rewrite lookup_empty in H.
Qed.

(** C1: on the history of the end-to-end scenario, listed newest first as
    [git log] does, with both files on disk, the run returns and leaves
    [x.txt] with the time stamp of commit A, the older of the two commits
    that touched it, and not with the one of commit B. *)
Theorem newest_first_leaves_oldest_stamp :
  commit_ids = ["commitB"; "commitA"; ""]
  /\ timestamp "commitA" = timeA /\ timestamp "commitB" = timeB /\ (timeA < timeB)%Z
  /\ "x.txt" ∈ changed_paths "commitA" /\ "x.txt" ∈ changed_paths "commitB"
  /\ (logWalk "/repo" (start tree_xy)).1 = Ret tt
  /\ disk_after_run "/repo" tree_xy !! "/repo/x.txt"
     = Some {| atime := timeA; mtime := timeA; utime_err := None |}
  /\ disk_after_run "/repo" tree_xy !! "/repo/y.txt"
     = Some {| atime := timeB; mtime := timeB; utime_err := None |}.
Proof.
  repeat split; try reflexivity.
  - change ("x.txt" ∈ ["x.txt"]). by left.
  - change ("x.txt" ∈ ["x.txt"; "y.txt"]). by left.
Qed.


Lemma getCommitFiles_paths_witness :
  cmd_failed (run_command (show_argv "commitB")) = false
  /\ exists date err,
       (getCommitFiles "commitB" (start tree_xy)).1 =
         Ret (date,
              filter (fun line => line <> "")
                (drop 1 (strings_Split (cmd_out (run_command (show_argv "commitB"))) newline)),
              err)
       /\ "" ∉ changed_paths "commitB".
Proof.
  split; [reflexivity |].
  apply (getCommitFiles_paths "commitB" (start tree_xy)). reflexivity.
Defined.

End TwoCommits.

Section BadDate.

#[local] Existing Instance bad_date.

Lemma retrieval_error_stops_before_files_witness :
  getCommitFiles "commitX" (start tree_x) =
    (Ret (time_zero, ["x.txt"; "z.txt"],
          Some "Could not understand this time stamp: 2023-01-15 09:30:00 +0000"),
     after (start tree_x) [Exec (show_argv "commitX")])
  /\ for_range ("commitX" :: ["commitA"; ""]) (walk_commit "/repo") (start tree_x) =
     (Exit 1,
      {| disk := tree_x;
         trace := [Exec (show_argv "commitX");
                   Stderr ("Error listing git commit files: " +:+
                           "Could not understand this time stamp: 2023-01-15 09:30:00 +0000")] |}).
Proof.
  split; [reflexivity |].
  apply (retrieval_error_stops_before_files "/repo" "commitX" ["commitA"; ""] (start tree_x)
           time_zero ["x.txt"; "z.txt"]
           "Could not understand this time stamp: 2023-01-15 09:30:00 +0000"
           (after (start tree_x) [Exec (show_argv "commitX")])).
  - discriminate.
  - reflexivity.
Defined.

Lemma malformed_date_is_fatal_witness :
  commit_ids = ["commitB"] ++ "commitX" :: ["commitA"; ""]
  /\ time_Parse layout (date_line "commitX") = None
  /\ exit_status (logWalk "/repo" (start tree_x)).1 = 1%Z
  /\ disk (logWalk "/repo" (start tree_x)).2
     = disk (for_range ["commitB"] (walk_commit "/repo") (listed tree_x)).2
  /\ ((for_range ["commitB"] (walk_commit "/repo") (listed tree_x)).1 = Ret tt ->
      logWalk "/repo" (start tree_x) =
      (Exit 1,
       after (for_range ["commitB"] (walk_commit "/repo") (listed tree_x)).2
         [Exec (show_argv "commitX");
          Stderr ("Error listing git commit files: " +:+
                  "Could not understand this time stamp: " +:+ date_line "commitX")])).
Proof.
  split; [reflexivity |]. split; [reflexivity |].
  apply (malformed_date_is_fatal "/repo" tree_x ["commitB"] "commitX" ["commitA"; ""]).
  - reflexivity.
  - reflexivity.
  - discriminate.
  - reflexivity.
  - reflexivity.
Defined.

End BadDate.

Section EmptyHistory.

#[local] Existing Instance empty_history.

Lemma empty_history_is_noop_witness :
  commit_ids = [""; ""]
  /\ logWalk "/repo" (start tree_x) = (Ret tt, {| disk := tree_x; trace := [Exec log_argv] |})
  /\ exit_status (logWalk "/repo" (start tree_x)).1 = 0%Z.
Proof.
  split; [reflexivity |].
  apply (empty_history_is_noop "/repo" tree_x).
  - reflexivity.
  - intros h Hin. change (h ∈ [""; ""]) in Hin.
    apply elem_of_cons in Hin as [-> | Hin]; [reflexivity |].
    by apply list_elem_of_singleton in Hin.
Defined.

End EmptyHistory.


(** * Further properties of the active path *)

Section MoreProperties.

Context {Time : Type} {W : World Time}.

Implicit Types (st : @Proc Time) (d : gmap string (@File Time)) (tr seg : list (@Event Time)).
Implicit Types (file : @File Time).

(** ** How a run ends *)

(** X1: [main] never panics, and the exit status of the process is 0 or 1,
    whatever [git] prints and whatever the disk holds. *)
Theorem main_exit_status st :
  ((main st).1 = Ret tt \/ (main st).1 = Exit 1)
  /\ (exit_status (main st).1 = 0%Z \/ exit_status (main st).1 = 1%Z).
Proof.
  pose proof (main_clean st) as [H | H]; rewrite H; simpl; auto.
Qed.

(** X2: a failure before the walk is fatal and leaves the disk alone.  When
    the working directory is unknown, [main] writes the error and the two
    lines of usage and exits with status 1 without running [git]; when
    [git log] fails, the run exits with status 1 after the message that
    carries the combined output, with no other subprocess and no access to
    a file. *)
Theorem startup_failure_is_fatal st :
  (forall e, os_Getwd = inr e ->
     main st =
     (Exit 1,
      {| disk := disk st;
         trace := trace st ++ [Stderr ("Error getting working directory: " +:+ e);
                               Println [VStr "Usage:"];
                               Println [VStr "cd <git-dir> && <bin-dir>/gitime"]] |}))
  /\ (forall pwd, os_Getwd = inl pwd ->
        cmd_failed (run_command log_argv) = true ->
        main st =
        (Exit 1,
         {| disk := disk st;
            trace := trace st ++ [Exec log_argv;
                                  Stderr ("Error listing git commits: " +:+
                                          cmd_out (run_command log_argv))] |})).
Proof.
  split.
  - intros e He. unfold main. rewrite He.
    unfold bind, Fprintf_Stderr, fmt_Println, emit, os_Exit. simpl.
    by rewrite <- !app_assoc.
  - intros pwd Hpwd Hlog. rewrite (main_run pwd st Hpwd), logWalk_run, Hlog. reflexivity.
Qed.

(** X3: a time stamp that cannot be written is fatal, and nothing is rolled
    back.  When the files before [f] of a commit were handled and the file
    at the path of [f] refuses the change, the loop ends the process with
    status 1 after the message; the files after [f] are not looked at, and
    the disk is the one the files before [f] left. *)
Theorem chtimes_failure_is_fatal gitDir t fpre f fpost st st1 file e :
  for_range fpre (update_file gitDir t) st = (Ret tt, st1) ->
  disk st1 !! path_Join gitDir f = Some file ->
  utime_err file = Some e ->
  for_range (fpre ++ f :: fpost) (update_file gitDir t) st =
  (Exit 1,
   {| disk := disk st1;
      trace := trace st1 ++ [Println [VTime t; VStr ":"; VStr f];
                             Stat (path_Join gitDir f);
                             Chtimes (path_Join gitDir f) t t;
                             Stderr ("Error changing file mtime: " +:+ e)] |}).
Proof.
  intros Hpre Hfile Herr. rewrite for_range_app. unfold bind. rewrite Hpre.
  rewrite for_range_cons, update_file_run. simpl. by rewrite Hfile, Herr.
Qed.

(** ** What a run leaves alone *)


(** ** Where the times of a file come from *)




(** ** The subprocesses of a run *)

Lemma execs_app (tr1 tr2 : list (@Event Time)) : execs (tr1 ++ tr2) = execs tr1 ++ execs tr2.
Proof. apply omap_app. Qed.

Lemma update_files_execs gitDir t fs st :
  execs (trace (for_range fs (update_file gitDir t) st).2) = execs (trace st).
Proof.
  apply (for_range_rel (fun st st' => execs (trace st') = execs (trace st))).
  - done.
  - intros st1 st2 st3 H12 H23. by rewrite H23.
  - intros f st0 _. rewrite update_file_run. simpl.
    destruct (disk st0 !! path_Join gitDir f) as [file |];
      [destruct (utime_err file) | destruct (path_error _)];
      simpl; rewrite execs_app; simpl; by rewrite app_nil_r.
Qed.

Lemma walk_commits_execs gitDir hs :
  forall st,
  exists n,
    execs (trace (for_range hs (walk_commit gitDir) st).2) =
      execs (trace st) ++ map show_argv (take n (filter (fun h => h <> "") hs))
    /\ ((for_range hs (walk_commit gitDir) st).1 = Ret tt ->
        n = length (filter (fun h => h <> "") hs)).
Proof.
  induction hs as [| h hs IH]; intros st.
  - exists 0. simpl. by rewrite app_nil_r.
  - rewrite for_range_cons, walk_commit_run.
    destruct (String.eqb_spec h "") as [-> | Hne].
    { rewrite filter_cons_False by (by intros []). apply IH. }
    rewrite filter_cons_True by done.
    destruct (retrieval_error h).
    { exists 1. simpl. rewrite execs_app. split; [reflexivity | done]. }
    pose proof (update_files_execs gitDir (timestamp h) (changed_paths h)
                  (after st [Exec (show_argv h)])) as Hfiles.
    destruct (for_range (changed_paths h) (update_file gitDir (timestamp h))
                (after st [Exec (show_argv h)])) as [[[] | code | msg] st1].
    + destruct (IH st1) as (n & Hn & Hret). exists (S n). simpl in *.
      rewrite Hn, Hfiles, execs_app. simpl. rewrite <- app_assoc. split; [done |].
      intros Hr. by rewrite (Hret Hr).
    + exists 1. simpl in *. rewrite Hfiles, execs_app. split; [reflexivity | done].
    + exists 1. simpl in *. rewrite Hfiles, execs_app. split; [reflexivity | done].
Qed.

(** X6: the subprocesses of a run are [git log] and then [git show] for
    the first [n] non-empty identifiers of the enumeration, in order and
    once each, with no other command; when the run returns, [n] is the
    number of the non-empty identifiers: every commit of the enumeration
    is asked for exactly once per occurrence. *)
Theorem one_git_show_per_commit gitDir d :
  exists n,
    execs (trace (logWalk gitDir (start d)).2) =
      log_argv :: map show_argv (take n (filter (fun h => h <> "") commit_ids))
    /\ ((logWalk gitDir (start d)).1 = Ret tt ->
        execs (trace (logWalk gitDir (start d)).2) =
          log_argv :: map show_argv (filter (fun h => h <> "") commit_ids)).
Proof.
  rewrite logWalk_run. destruct (cmd_failed (run_command log_argv)).
  - exists 0. split; [reflexivity | done].
  - destruct (walk_commits_execs gitDir commit_ids (after (start d) [Exec log_argv]))
      as (n & Hn & Hret).
    exists n. split; [exact Hn |]. intros Hr. rewrite Hn, (Hret Hr). by rewrite firstn_all.
Qed.

(** ** Time stamp writes are checked *)

Lemma checked_writes_none d seg :
  (forall i p a m, seg !! i <> Some (Chtimes p a m)) -> checked_writes d seg.
Proof. intros H i p a m Hi. by apply H in Hi. Qed.

Lemma extends_checked_refl st : extends_checked st st.
Proof.
  split; [apply same_shape_refl |]. exists []. split; [by rewrite app_nil_r |].
  apply checked_writes_none. intros i p a m. by rewrite lookup_nil.
Qed.

Lemma extends_checked_trans st1 st2 st3 :
  extends_checked st1 st2 -> extends_checked st2 st3 -> extends_checked st1 st3.
Proof.
  intros [Hs12 (seg1 & H1 & Hc1)] [Hs23 (seg2 & H2 & Hc2)].
  split; [by eapply same_shape_trans |].
  exists (seg1 ++ seg2). split; [by rewrite H2, H1, app_assoc |].
  intros i p a m Hi. apply lookup_app_Some in Hi as [Hi | [Hlen Hi]].
  - destruct (Hc1 i p a m Hi) as (Ham & Hex & j & -> & Hj).
    repeat split; try done. exists j. split; [done | by apply lookup_app_l_Some].
  - destruct (Hc2 _ p a m Hi) as (Ham & Hex & j & Hij & Hj).
    split; [done |]. split.
    + intros [Hnone Herr]. apply Hex. split; [| done].
      by apply (same_shape_None _ _ p Hs12).
    + exists (length seg1 + j). split; [lia |]. by rewrite lookup_app_shift.
Qed.

Lemma extends_checked_after st evs :
  (forall i p a m, evs !! i <> Some (Chtimes p a m)) -> extends_checked st (after st evs).
Proof.
  intros H. split; [apply same_shape_refl |]. exists evs. split; [done |].
  by apply checked_writes_none.
Qed.

Lemma update_file_checked gitDir t f st : extends_checked st (update_file gitDir t f st).2.
Proof.
  pose proof (update_file_shape gitDir t f st) as Hshape.
  rewrite update_file_run in *. simpl in *.
  assert (Hc : ~ reported_missing (disk st) (path_Join gitDir f) ->
               forall tail, (forall i p a m, tail !! i <> Some (Chtimes p a m)) ->
               checked_writes (disk st)
                 ([progress t f; Stat (path_Join gitDir f);
                   Chtimes (path_Join gitDir f) t t] ++ tail)).
  { intros Hthere tail Htail [| [| [| i]]] p a m Hi; simpl in Hi.
    - done.
    - done.
    - injection Hi as <- <- <-. split; [done |]. split; [done |]. by exists 1.
    - by apply Htail in Hi. }
  destruct (disk st !! path_Join gitDir f) as [file |] eqn:E.
  - assert (Hthere : ~ reported_missing (disk st) (path_Join gitDir f)).
    { intros [Hnone _]. by rewrite E in Hnone. }
    destruct (utime_err file) as [e |]; split; try done; eexists; (split; [reflexivity |]).
    + apply (Hc Hthere [Stderr ("Error changing file mtime: " +:+ e)]).
      intros [| i] p a m; done.
    + apply (Hc Hthere []). intros i p a m. by rewrite lookup_nil.
  - destruct (path_error (path_Join gitDir f)) as [e |] eqn:Ep.
    + split; [done |]. eexists. split; [reflexivity |].
      refine (Hc _ [Stderr _] _).
      * intros [_ Herr]. by rewrite Ep in Herr.
      * intros [| i] p a m; done.
    + apply extends_checked_after. intros [| [| [| i]]] p a m; done.
Qed.

Lemma walk_commit_checked gitDir h st : extends_checked st (walk_commit gitDir h st).2.
Proof.
  rewrite walk_commit_run. destruct (String.eqb h ""); [apply extends_checked_refl |].
  destruct (retrieval_error h) as [e |].
  - apply extends_checked_after. intros [| [| i]] p a m; done.
  - eapply extends_checked_trans.
    + apply (extends_checked_after st [Exec (show_argv h)]). intros [| i] p a m; done.
    + apply (for_range_rel extends_checked).
      * apply extends_checked_refl.
      * apply extends_checked_trans.
      * intros. apply update_file_checked.
Qed.

(** X7: a run never tries to stamp a path that it has not checked, or that
    the check has reported missing.  Every call of [os.Chtimes] in the
    trace of a run sets the access time and the modification time to the
    same value, comes right after the existence check of this very path,
    and is on a path that is not reported missing: the path is on the
    disk, or it is not and the error of the system is another one than
    "no such file or directory". *)
Theorem chtimes_is_checked gitDir d i p a m :
  trace (logWalk gitDir (start d)).2 !! i = Some (Chtimes p a m) ->
  a = m
  /\ (is_Some (d !! p) \/ (d !! p = None /\ is_Some (path_error p)))
  /\ exists j, i = S j /\ trace (logWalk gitDir (start d)).2 !! j = Some (Stat p).
Proof.
  assert (Hrun : extends_checked (start d) (logWalk gitDir (start d)).2).
  { rewrite logWalk_run. destruct (cmd_failed (run_command log_argv)).
    - apply extends_checked_after. intros [| [| j]] q a' m'; done.
    - eapply extends_checked_trans.
      + apply (extends_checked_after (start d) [Exec log_argv]). intros [| j] q a' m'; done.
      + apply (for_range_rel extends_checked).
        * apply extends_checked_refl.
        * apply extends_checked_trans.
        * intros. apply walk_commit_checked. }
  destruct Hrun as [_ (seg & Htrace & Hseg)]. simpl in Htrace. rewrite Htrace.
  intros Hi. destruct (Hseg i p a m Hi) as (Ham & Hthere & Hj).
  split; [done |]. split; [| done].
  unfold reported_missing in Hthere. simpl in Hthere.
  destruct (d !! p) as [file |]; [left; by eexists |].
  destruct (path_error p) as [e |]; [right; split; [done | by eexists] |].
  exfalso. by apply Hthere.
Qed.

(** ** Paths that are not there *)

Lemma file_events_shape gitDir d1 d2 (t : Time) f :
  same_shape d1 d2 -> file_events gitDir d1 t f = file_events gitDir d2 t f.
Proof.
  intros Hs. unfold file_events. cbv zeta. specialize (Hs (path_Join gitDir f)).
  destruct (d1 !! path_Join gitDir f), (d2 !! path_Join gitDir f); done.
Qed.

Lemma commit_events_shape gitDir d1 d2 h :
  same_shape d1 d2 -> commit_events gitDir d1 h = commit_events gitDir d2 h.
Proof.
  intros Hs. unfold commit_events. destruct (String.eqb h ""); [done |].
  do 2 f_equal. apply map_ext. intros f. by apply file_events_shape.
Qed.

Lemma update_files_trace gitDir t fs :
  forall st st',
  for_range fs (update_file gitDir t) st = (Ret tt, st') ->
  trace st' = trace st ++ concat (map (file_events gitDir (disk st) t) fs).
Proof.
  induction fs as [| f fs IH]; intros st st' Hrun.
  - injection Hrun as <-. simpl. by rewrite app_nil_r.
  - rewrite for_range_cons in Hrun.
    pose proof (update_file_shape gitDir t f st) as Hshape.
    destruct (update_file gitDir t f st) as [[[] | code | msg] st1] eqn:Hf;
      [| done | done].
    simpl in Hshape. rewrite (IH _ _ Hrun).
    assert (Hhead : trace st1 = trace st ++ file_events gitDir (disk st) t f).
    { revert Hf. rewrite update_file_run. unfold file_events. cbv zeta.
      destruct (disk st !! path_Join gitDir f) as [file |];
        [destruct (utime_err file); [done |] | destruct (path_error _); [done |]];
        by intros [= <-]. }
    rewrite Hhead, map_cons, concat_cons, <- app_assoc. do 3 f_equal.
    apply map_ext. intros f'. symmetry. by apply file_events_shape.
Qed.

Lemma walk_commits_trace gitDir hs :
  forall st st',
  for_range hs (walk_commit gitDir) st = (Ret tt, st') ->
  trace st' = trace st ++ concat (map (commit_events gitDir (disk st)) hs).
Proof.
  induction hs as [| h hs IH]; intros st st' Hrun.
  - injection Hrun as <-. simpl. by rewrite app_nil_r.
  - rewrite for_range_cons in Hrun.
    pose proof (walk_commit_shape gitDir h st) as Hshape.
    destruct (walk_commit gitDir h st) as [[[] | code | msg] st1] eqn:Hh; [| done | done].
    simpl in Hshape. rewrite (IH _ _ Hrun).
    assert (Hhead : trace st1 = trace st ++ commit_events gitDir (disk st) h).
    { revert Hh. rewrite walk_commit_run. unfold commit_events.
      destruct (String.eqb h ""); [intros [= <-]; by rewrite app_nil_r |].
      destruct (retrieval_error h); [done |]. intros Hfiles.
      apply update_files_trace in Hfiles. simpl in Hfiles.
      by rewrite Hfiles, <- app_assoc. }
    rewrite Hhead, map_cons, concat_cons, <- app_assoc. do 3 f_equal.
    apply map_ext. intros h'. symmetry. by apply commit_events_shape.
Qed.

(** X18: what holds of the skip of a missing path.  Take a run in which
    [git] answers without an error, every file on disk accepts the change
    of its times, and every changed path that is not on disk is reported
    missing (the error of the look at it is "no such file or directory").
    The run returns, and its trace is the call of [git log] followed, for
    each commit in order, by the call of [git show] and, for each of its
    paths in order, the progress line, the existence check and then the
    write of the times for a file on disk, or the warning for a path that
    is not there: a missing path costs a warning and the walk goes on with
    the paths and the commits after it.  No file is created: a path that
    was not on disk is not on disk at the end. *)
Theorem missing_paths_are_skipped_with_warning gitDir d :
  cmd_failed (run_command log_argv) = false ->
  (forall h, h ∈ commit_ids -> h <> "" -> retrieval_error h = None) ->
  (forall p file, d !! p = Some file -> utime_err file = None) ->
  (forall h f, h ∈ commit_ids -> h <> "" -> f ∈ changed_paths h ->
               d !! path_Join gitDir f = None -> path_error (path_Join gitDir f) = None) ->
  exists final,
    logWalk gitDir (start d) = (Ret tt, final)
    /\ trace final = Exec log_argv :: concat (map (commit_events gitDir d) commit_ids)
    /\ (forall p, d !! p = None -> disk final !! p = None).
Proof.
  intros Hlog Hrec Hd Hreach.
  assert (Hret : (logWalk gitDir (start d)).1 = Ret tt).
  { rewrite logWalk_run, Hlog.
    refine (proj1 (for_range_returns (fun st => same_shape d (disk st)) commit_ids
                     (walk_commit gitDir) _ (after (start d) [Exec log_argv])
                     (same_shape_refl d))).
    intros h st Hh Hshape. split.
    - rewrite walk_commit_run.
      destruct (String.eqb_spec h "") as [-> | Hne]; [done |].
      rewrite (Hrec h Hh Hne).
      apply (update_files_return gitDir (timestamp h) (changed_paths h)
               (after st [Exec (show_argv h)])).
      + by apply (stampable_shape d).
      + apply (in_reach_shape d); [done |].
        intros p Hp Hnone. apply list_elem_of_fmap in Hp as (f & -> & Hf).
        by apply (Hreach h f).
    - eapply same_shape_trans; [exact Hshape | apply walk_commit_shape]. }
  destruct (logWalk gitDir (start d)) as [o final] eqn:Hrun. simpl in Hret. subst o.
  exists final. split; [done |]. split.
  - rewrite logWalk_run, Hlog in Hrun. by apply walk_commits_trace in Hrun.
  - intros p Hp. pose proof (logWalk_shape gitDir (start d)) as Hshape.
    rewrite Hrun in Hshape. by apply (same_shape_None _ _ p Hshape).
Qed.

(** ** The split of the output *)

Lemma join_lines_cons piece piece' rest :
  join_lines (piece :: piece' :: rest) = piece +:+ nl +:+ join_lines (piece' :: rest).
Proof. reflexivity. Qed.

Lemma append_String c s1 s2 : String c s1 +:+ s2 = String c (s1 +:+ s2).
Proof. reflexivity. Qed.

Lemma join_lines_split s : join_lines (strings_Split s newline) = s.
Proof.
  induction s as [| c s IH]; [reflexivity |]. simpl.
  destruct (strings_Split_cons s newline) as (piece & pieces & Hs). rewrite Hs in *.
  destruct (Ascii.eqb_spec c newline) as [-> | Hne].
  - rewrite join_lines_cons, IH. reflexivity.
  - destruct pieces as [| piece' pieces].
    + simpl in *. by rewrite IH.
    + rewrite join_lines_cons in *. rewrite append_String. by rewrite IH.
Qed.

Lemma split_pieces_no_newline s piece :
  piece ∈ strings_Split s newline -> ~ occurs newline piece.
Proof.
  revert piece. induction s as [| c s IH]; intros piece Hin; simpl in Hin.
  - apply list_elem_of_singleton in Hin as ->. simpl. tauto.
  - destruct (Ascii.eqb_spec c newline) as [-> | Hne].
    + apply elem_of_cons in Hin as [-> | Hin]; [simpl; tauto | by apply IH].
    + destruct (strings_Split_cons s newline) as (piece0 & pieces & Hs). rewrite Hs in *.
      apply elem_of_cons in Hin as [-> | Hin].
      * simpl. intros [Hc | Hocc]; [done |]. apply (IH piece0); [by left | done].
      * apply IH. by right.
Qed.

Lemma split_trailing_newline s :
  strings_Split (s +:+ nl) newline = strings_Split s newline ++ [""].
Proof.
  induction s as [| c s IH]; [reflexivity |].
  rewrite append_String. simpl. rewrite IH.
  destruct (Ascii.eqb c newline); [reflexivity |].
  destruct (strings_Split_cons s newline) as (piece & pieces & ->). reflexivity.
Qed.

(** X8: when [git log] succeeds, [getCommits] loses nothing of its output:
    the identifiers joined by newlines are the output again, and no
    identifier holds a newline.  An output that ends with a newline, as
    the one of [git] does, gives an empty string as the last identifier,
    the one the loop of [logWalk] skips. *)
Theorem getCommits_splits_output st :
  cmd_failed (run_command log_argv) = false ->
  exists hashes,
    (getCommits st).1 = Ret (hashes, None)
    /\ join_lines hashes = cmd_out (run_command log_argv)
    /\ (forall h, h ∈ hashes -> ~ occurs newline h)
    /\ (forall s, cmd_out (run_command log_argv) = s +:+ nl -> last hashes = Some "").
Proof.
  intros Hlog. rewrite getCommits_run, Hlog. exists commit_ids. unfold commit_ids.
  split; [reflexivity |]. split; [apply join_lines_split |]. split.
  - intros h. apply split_pieces_no_newline.
  - intros s ->. rewrite split_trailing_newline. apply last_snoc.
Qed.

End MoreProperties.

(** * Properties of the historical path *)

Section FilesWalkProperties.

Context {Time : Type} {W : World Time} {H : Host}.

Implicit Types (st : @Proc Time) (d : gmap string (@File Time)) (tr seg : list (@Event Time)).
Implicit Types (file : @File Time).

(** ** The calls, evaluated *)

Lemma gitListFiles_run gitDir st :
  gitListFiles gitDir st =
  (Ret (if cmd_failed (run_command (ls_argv gitDir))
        then ([], Some (cmd_out (run_command (ls_argv gitDir))))
        else (listed_files gitDir, None)),
   after st [Exec (ls_argv gitDir)]).
Proof.
  unfold gitListFiles, CombinedOutput, listed_files, bind, emit, ret.
  fold (ls_argv gitDir). destruct (cmd_failed (run_command (ls_argv gitDir))); reflexivity.
Qed.

Lemma gitFileRevision_run gitDir gitTreeDir f st :
  gitFileRevision gitDir gitTreeDir f st =
  (Ret (revision_record f), after st [Exec (rev_argv f)]).
Proof.
  unfold gitFileRevision, CombinedOutput, revision_record, bind, emit, ret.
  fold (rev_argv f). destruct (cmd_failed (run_command (rev_argv f))); reflexivity.
Qed.

Lemma gitCommitTime_run gitDir gitTreeDir hash st :
  gitCommitTime gitDir gitTreeDir hash st =
  (Ret (time_record hash), after st [Exec (ai_argv hash)]).
Proof.
  unfold gitCommitTime, CombinedOutput, time_record, bind, emit, ret.
  fold (ai_argv hash). destruct (cmd_failed (run_command (ai_argv hash))); [reflexivity |].
  destruct (bytes_IndexAny (cmd_out (run_command (ai_argv hash))) nl =? -1)%Z;
    [reflexivity |].
  destruct (time_Parse layout_iso _); reflexivity.
Qed.

Lemma os_Stat_run name st :
  os_Stat_IsNotExist name st =
  (Ret (bool_decide (disk st !! name = None /\ path_error name = None)),
   after st [Stat name]).
Proof. reflexivity. Qed.

Lemma os_Chtimes_run name (a m : Time) st :
  os_Chtimes name a m st =
  match disk st !! name with
  | None =>
      (Ret (Some ("chtimes " +:+ name +:+ ": " +:+
                  default "no such file or directory" (path_error name))),
       after st [Chtimes name a m])
  | Some file =>
      match utime_err file with
      | Some e => (Ret (Some e), after st [Chtimes name a m])
      | None =>
          (Ret None,
           {| disk := <[name := touched a m file]> (disk st);
              trace := trace st ++ [Chtimes name a m] |})
      end
  end.
Proof.
  unfold os_Chtimes, bind, emit. simpl.
  destruct (disk st !! name) as [file |]; [destruct (utime_err file) |]; reflexivity.
Qed.

Lemma stamp_file_run gitDir gitTreeDir f st :
  stamp_file gitDir gitTreeDir f st =
  if String.eqb f "" then (Ret tt, st)
  else
    let p := path_Join gitTreeDir f in
    let rev := (revision_record f).1 in
    let t := file_time f in
    let asked (refusal : option string) (stamped_disk : gmap string File) :=
      match (revision_record f).2 with
      | Some e =>
          (Exit 1, after st [Stat p; Exec (rev_argv f);
                             Stderr ("Error reading file revision: " +:+ e)])
      | None =>
          match (time_record rev).2 with
          | Some e =>
              (Exit 1, after st [Stat p; Exec (rev_argv f); Exec (ai_argv rev);
                                 Stderr ("Error reading revision info: " +:+ e)])
          | None =>
              match refusal with
              | Some e =>
                  (Exit 1, after st [Stat p; Exec (rev_argv f); Exec (ai_argv rev);
                                     Chtimes p t t;
                                     Stderr ("Error changing file mtime: " +:+ e)])
              | None =>
                  (Ret tt,
                   {| disk := stamped_disk;
                      trace := trace st ++ [Stat p; Exec (rev_argv f);
                                            Exec (ai_argv rev); Chtimes p t t] |})
              end
          end
      end in
    match disk st !! p with
    | None =>
        match path_error p with
        | None => (Ret tt, after st [Stat p])
        | Some e => asked (Some ("chtimes " +:+ p +:+ ": " +:+ e)) (disk st)
        end
    | Some file => asked (utime_err file) (<[p := touched t t file]> (disk st))
    end.
Proof.
  unfold stamp_file. destruct (String.eqb f ""); [reflexivity |].
  unfold bind at 1. rewrite os_Stat_run. unfold file_time. cbv zeta.
  assert (Hgo : forall (there : bool),
    (if there
     then ret tt
     else
       bind (gitFileRevision gitDir gitTreeDir f) (fun '(rev, err) =>
         bind match err with
              | Some e =>
                  bind (Fprintf_Stderr "Error reading file revision: " e)
                    (fun _ => os_Exit 1)
              | None => ret tt
              end (fun _ =>
           bind (gitCommitTime gitDir gitTreeDir rev) (fun '(mtime, err0) =>
             bind match err0 with
                  | Some e =>
                      bind (Fprintf_Stderr "Error reading revision info: " e)
                        (fun _ => os_Exit 1)
                  | None => ret tt
                  end (fun _ =>
               bind (os_Chtimes (path_Join gitTreeDir f) mtime mtime) (fun err1 =>
                 match err1 with
                 | Some e =>
                     bind (Fprintf_Stderr "Error changing file mtime: " e)
                       (fun _ => os_Exit 1)
                 | None => ret tt
                 end))))))
      (after st [Stat (path_Join gitTreeDir f)])
    = if there then (Ret tt, after st [Stat (path_Join gitTreeDir f)])
      else
        match (revision_record f).2 with
        | Some e =>
            (Exit 1, after st [Stat (path_Join gitTreeDir f); Exec (rev_argv f);
                               Stderr ("Error reading file revision: " +:+ e)])
        | None =>
            match (time_record (revision_record f).1).2 with
            | Some e =>
                (Exit 1, after st [Stat (path_Join gitTreeDir f); Exec (rev_argv f);
                                   Exec (ai_argv (revision_record f).1);
                                   Stderr ("Error reading revision info: " +:+ e)])
            | None =>
                match
                  match disk st !! path_Join gitTreeDir f with
                  | Some file => utime_err file
                  | None =>
                      Some ("chtimes " +:+ path_Join gitTreeDir f +:+ ": " +:+
                            default "no such file or directory"
                              (path_error (path_Join gitTreeDir f)))
                  end
                with
                | Some e =>
                    (Exit 1,
                     after st [Stat (path_Join gitTreeDir f); Exec (rev_argv f);
                               Exec (ai_argv (revision_record f).1);
                               Chtimes (path_Join gitTreeDir f)
                                 (time_record (revision_record f).1).1
                                 (time_record (revision_record f).1).1;
                               Stderr ("Error changing file mtime: " +:+ e)])
                | None =>
                    (Ret tt,
                     {| disk :=
                          match disk st !! path_Join gitTreeDir f with
                          | Some file =>
                              <[path_Join gitTreeDir f :=
                                  touched (time_record (revision_record f).1).1
                                    (time_record (revision_record f).1).1 file]> (disk st)
                          | None => disk st
                          end;
                        trace := trace st ++
                          [Stat (path_Join gitTreeDir f); Exec (rev_argv f);
                           Exec (ai_argv (revision_record f).1);
                           Chtimes (path_Join gitTreeDir f)
                             (time_record (revision_record f).1).1
                             (time_record (revision_record f).1).1] |})
                end
            end
        end).
  { intros [|]; [reflexivity |].
    unfold bind at 1. rewrite gitFileRevision_run.
    destruct (revision_record f) as [rev [e |]]; simpl.
    { unfold bind, Fprintf_Stderr, emit, os_Exit, after. simpl. by rewrite <- !app_assoc. }
    unfold bind at 1. unfold ret at 1. unfold bind at 1. rewrite gitCommitTime_run.
    destruct (time_record rev) as [t [e |]]; simpl.
    { unfold bind, Fprintf_Stderr, emit, os_Exit, after. simpl. by rewrite <- !app_assoc. }
    unfold bind at 1. unfold ret at 1. unfold bind at 1. rewrite os_Chtimes_run.
    rewrite !disk_after.
    destruct (disk st !! path_Join gitTreeDir f) as [file |];
      [destruct (utime_err file) |];
      unfold bind, Fprintf_Stderr, emit, os_Exit, ret, after; simpl;
      by rewrite <- !app_assoc. }
  rewrite Hgo.
  destruct (disk st !! path_Join gitTreeDir f) as [file |] eqn:E.
  - rewrite bool_decide_eq_false_2 by (by intros [? _]).
    destruct (revision_record f).2; [done |].
    destruct (time_record (revision_record f).1).2; [done |].
    by destruct (utime_err file).
  - destruct (path_error (path_Join gitTreeDir f)) as [e |] eqn:Ep.
    + rewrite bool_decide_eq_false_2 by (by intros [_ ?]). simpl.
      destruct (revision_record f).2; [done |].
      by destruct (time_record (revision_record f).1).2.
    + by rewrite bool_decide_eq_true_2.
Qed.

Lemma filesWalk_unfold gitDir gitTreeDir :
  filesWalk gitDir gitTreeDir =
  bind (gitListFiles gitDir) (fun '(fs, err) =>
    bind match err with
         | Some e => bind (Fprintf_Stderr "Error listing git files: " e) (fun _ => os_Exit 1)
         | None => ret tt
         end
      (fun _ => for_range fs (stamp_file gitDir gitTreeDir))).
Proof. reflexivity. Qed.

Lemma filesWalk_run gitDir gitTreeDir st :
  filesWalk gitDir gitTreeDir st =
  if cmd_failed (run_command (ls_argv gitDir))
  then (Exit 1, after st
                  [Exec (ls_argv gitDir);
                   Stderr ("Error listing git files: " +:+
                           cmd_out (run_command (ls_argv gitDir)))])
  else for_range (listed_files gitDir) (stamp_file gitDir gitTreeDir)
         (after st [Exec (ls_argv gitDir)]).
Proof.
  rewrite filesWalk_unfold. unfold bind at 1. rewrite gitListFiles_run.
  destruct (cmd_failed (run_command (ls_argv gitDir))).
  - unfold bind, Fprintf_Stderr, emit, os_Exit, after. simpl. by rewrite <- app_assoc.
  - reflexivity.
Qed.

(** ** Newlines in the answers of git *)

Lemma byte_in_nl c : byte_in c nl = Ascii.eqb c newline.
Proof. simpl. apply orb_false_r. Qed.

Lemma index_no_newline s : ~ occurs newline s -> bytes_IndexAny s nl = (-1)%Z.
Proof.
  induction s as [| c s IH]; intros Hocc; [reflexivity |].
  cbn [bytes_IndexAny]. rewrite byte_in_nl.
  destruct (Ascii.eqb_spec c newline) as [-> | Hne]; [exfalso; apply Hocc; by left |].
  rewrite IH; [reflexivity |]. intros Hs. apply Hocc. by right.
Qed.

Lemma index_first_newline line rest :
  ~ occurs newline line ->
  bytes_IndexAny (line +:+ nl +:+ rest) nl = Z.of_nat (String.length line).
Proof.
  induction line as [| c line IH]; intros Hocc.
  - change ("" +:+ nl +:+ rest) with (String newline rest).
    cbn [String.length bytes_IndexAny]. rewrite byte_in_nl. by rewrite Ascii.eqb_refl.
  - rewrite append_String. cbn [bytes_IndexAny String.length]. rewrite byte_in_nl.
    destruct (Ascii.eqb_spec c newline) as [-> | Hne]; [exfalso; apply Hocc; by left |].
    rewrite IH by (intros Hs; apply Hocc; by right).
    destruct (Z.eqb_spec (Z.of_nat (String.length line)) (-1)); lia.
Qed.

Lemma slice_to_prefix line tail :
  slice_to (line +:+ tail) (Z.of_nat (String.length line)) = line.
Proof.
  unfold slice_to. rewrite Nat2Z.id. induction line as [| c line IH].
  - simpl. by destruct tail.
  - rewrite append_String. simpl. by rewrite IH.
Qed.

(** X9: [gitCommitTime] needs a newline after the date.  When [git show]
    succeeds and its output holds no newline, the function returns the
    zero time and the error that it could not separate the date, without
    a look at the text: also when the whole output is a date in the
    layout. *)
Theorem gitCommitTime_needs_newline gitDir gitTreeDir hash st :
  cmd_failed (run_command (ai_argv hash)) = false ->
  ~ occurs newline (cmd_out (run_command (ai_argv hash))) ->
  (gitCommitTime gitDir gitTreeDir hash st).1 =
  Ret (time_zero,
       Some ("Could not separate date from this output:" +:+ nl +:+
             cmd_out (run_command (ai_argv hash)))).
Proof.
  intros Hok Hocc. rewrite gitCommitTime_run. unfold time_record.
  rewrite Hok, (index_no_newline _ Hocc). reflexivity.
Qed.

(** X10: when [git show] succeeds, [gitCommitTime] reads the date from the
    first line of the output and from nothing else: what follows the first
    newline has no influence, the two directory arguments have none, and
    the result is the time [time.Parse] finds in the first line, or the
    zero time and the error that names this line. *)
Theorem gitCommitTime_reads_first_line gitDir gitTreeDir hash st line rest :
  cmd_failed (run_command (ai_argv hash)) = false ->
  cmd_out (run_command (ai_argv hash)) = line +:+ nl +:+ rest ->
  ~ occurs newline line ->
  (gitCommitTime gitDir gitTreeDir hash st).1 =
  Ret match time_Parse layout_iso line with
      | Some t => (t, None)
      | None => (time_zero, Some ("Could not understand this time stamp: " +:+ line))
      end.
Proof.
  intros Hok Hout Hocc. rewrite gitCommitTime_run. unfold time_record.
  rewrite Hok, Hout, (index_first_newline _ _ Hocc), slice_to_prefix.
  destruct (Z.eqb_spec (Z.of_nat (String.length line)) (-1)); [lia |]. reflexivity.
Qed.

Lemma trim_left_start s r : strings_TrimLeft s nl <> String newline r.
Proof.
  induction s as [| c s IH]; [done |]. cbn [strings_TrimLeft]. rewrite byte_in_nl.
  destruct (Ascii.eqb_spec c newline) as [-> | Hne]; [done |]. by intros [= ->].
Qed.

Lemma trim_right_start s c r :
  strings_TrimRight s nl = String c r -> exists r', s = String c r'.
Proof.
  destruct s as [| c' s]; [done |]. cbn [strings_TrimRight].
  destruct (strings_TrimRight s nl); [destruct (byte_in c' nl); [done |] |];
    intros [= -> _]; eauto.
Qed.

Lemma trim_right_end s r : strings_TrimRight s nl <> r +:+ nl.
Proof.
  revert r. induction s as [| c s IH]; intros r.
  - by destruct r.
  - cbn [strings_TrimRight]. rewrite byte_in_nl.
    destruct (strings_TrimRight s nl) as [| c' kept] eqn:E.
    + destruct (Ascii.eqb_spec c newline) as [-> | Hne]; [by destruct r |].
      destruct r as [| c'' r]; [by intros [= ->] |].
      rewrite append_String. intros [= _ Hr]. by destruct r.
    + destruct r as [| c'' r]; [done |].
      rewrite append_String. intros [= _ Hr]. by apply (IH r).
Qed.

Lemma trim_right_newline h : ~ occurs newline h -> strings_TrimRight (h +:+ nl) nl = h.
Proof.
  induction h as [| c h IH]; intros Hocc; [reflexivity |].
  rewrite append_String. cbn [strings_TrimRight]. rewrite byte_in_nl.
  rewrite IH by (intros Hs; apply Hocc; by right).
  destruct (Ascii.eqb_spec c newline) as [-> | Hne]; [exfalso; apply Hocc; by left |].
  by destruct h.
Qed.

Lemma trim_left_newline h : ~ occurs newline h -> strings_TrimLeft (h +:+ nl) nl = h +:+ nl
                                                  \/ h = "".
Proof.
  destruct h as [| c h]; intros Hocc; [by right |]. left.
  rewrite append_String. cbn [strings_TrimLeft]. rewrite byte_in_nl.
  destruct (Ascii.eqb_spec c newline) as [-> | Hne]; [exfalso; apply Hocc; by left |].
  reflexivity.
Qed.

(** X11: when [git rev-list] succeeds, the revision [gitFileRevision]
    returns neither starts nor ends with a newline; for an output that is
    one line, the revision followed by a newline, it is that line; and an
    empty output is no error: the revision is the empty string. *)
Theorem gitFileRevision_strips_newlines gitDir gitTreeDir f st :
  cmd_failed (run_command (rev_argv f)) = false ->
  exists rev,
    (gitFileRevision gitDir gitTreeDir f st).1 = Ret (rev, None)
    /\ (forall r, rev <> String newline r)
    /\ (forall r, rev <> r +:+ nl)
    /\ (forall h, cmd_out (run_command (rev_argv f)) = h +:+ nl ->
                  ~ occurs newline h -> rev = h)
    /\ (cmd_out (run_command (rev_argv f)) = "" -> rev = "").
Proof.
  intros Hok. rewrite gitFileRevision_run. unfold revision_record. rewrite Hok.
  eexists. split; [reflexivity |]. unfold strings_Trim. repeat split.
  - intros r Hr. apply trim_right_start in Hr as (r' & Hr'). by apply trim_left_start in Hr'.
  - intros r. apply trim_right_end.
  - intros h -> Hocc. destruct (trim_left_newline h Hocc) as [-> | ->];
      [by apply trim_right_newline | reflexivity].
  - by intros ->.
Qed.

(** ** How the historical path ends *)

Lemma stamp_file_clean gitDir gitTreeDir f st : clean (stamp_file gitDir gitTreeDir f st).1.
Proof.
  rewrite stamp_file_run. destruct (String.eqb f ""); [by left |]. cbv zeta.
  destruct (disk st !! path_Join gitTreeDir f) as [file |];
    [| destruct (path_error _); [| by left]];
    (destruct (revision_record f).2; [by right |]);
    (destruct (time_record (revision_record f).1).2; [by right |]).
  - destruct (utime_err file); [by right | by left].
  - by right.
Qed.

Lemma stamp_file_printed gitDir gitTreeDir f st :
  printed (trace (stamp_file gitDir gitTreeDir f st).2) = printed (trace st).
Proof.
  rewrite stamp_file_run. destruct (String.eqb f ""); [done |]. cbv zeta.
  destruct (disk st !! path_Join gitTreeDir f) as [file |];
    [| destruct (path_error _)];
    try (destruct (revision_record f).2;
         [| destruct (time_record (revision_record f).1).2]);
    try destruct (utime_err file);
    simpl; unfold printed; rewrite omap_app; simpl; by rewrite app_nil_r.
Qed.

Lemma filesWalk_clean gitDir gitTreeDir st : clean (filesWalk gitDir gitTreeDir st).1.
Proof.
  rewrite filesWalk_run. destruct (cmd_failed (run_command (ls_argv gitDir))); [by right |].
  apply for_range_clean. intros. apply stamp_file_clean.
Qed.

Lemma filesWalk_printed gitDir gitTreeDir st :
  printed (trace (filesWalk gitDir gitTreeDir st).2) = printed (trace st).
Proof.
  rewrite filesWalk_run. destruct (cmd_failed (run_command (ls_argv gitDir))).
  - simpl. unfold printed. rewrite omap_app. simpl. by rewrite app_nil_r.
  - etransitivity.
    + apply (for_range_rel (fun st st' => printed (trace st') = printed (trace st))).
      * done.
      * intros st1 st2 st3 H12 H23. by rewrite H23.
      * intros. apply stamp_file_printed.
    + simpl. unfold printed. rewrite omap_app. simpl. by rewrite app_nil_r.
Qed.

Lemma mainFilesWalk_run st :
  mainFilesWalk st =
  match os_Args with
  | [_; arg] =>
      let gitDir := path_Join arg ".git" in
      let gitTreeDir := path_Join1 arg in
      if bool_decide (disk st !! gitDir = None /\ path_error gitDir = None) then
        (Exit 1, after st [Stat gitDir; Stderr ("GIT directory doesn't exist: " +:+ gitDir)])
      else if bool_decide (disk st !! gitTreeDir = None /\ path_error gitTreeDir = None) then
        (Exit 1,
         after st [Stat gitDir; Stat gitTreeDir;
                   Stderr ("GIT working tree directory doesn't exist: " +:+ gitTreeDir)])
      else filesWalk gitDir gitTreeDir (after st [Stat gitDir; Stat gitTreeDir])
  | _ => (Exit 1, after st [Stderr "Provide git directory as argument"])
  end.
Proof.
  unfold mainFilesWalk.
  destruct os_Args as [| prog [| arg [| more args]]]; try reflexivity.
  set (fw := filesWalk).
  unfold bind, ret, index, os_Stat_IsNotExist, Fprintf_Stderr, emit, os_Exit, after.
  simpl.
  destruct (bool_decide (disk st !! path_Join arg ".git" = None
                         /\ path_error (path_Join arg ".git") = None)); simpl;
    [by rewrite <- !app_assoc |].
  destruct (bool_decide (disk st !! path_Join1 arg = None
                         /\ path_error (path_Join1 arg) = None)); simpl;
    by rewrite <- !app_assoc.
Qed.

(** X12: the historical path never panics, the read of [os.Args[1]] is in
    range whenever it is reached, the exit status is 0 or 1, and nothing
    is written to the standard output. *)
Theorem mainFilesWalk_exit_status st :
  ((mainFilesWalk st).1 = Ret tt \/ (mainFilesWalk st).1 = Exit 1)
  /\ (exit_status (mainFilesWalk st).1 = 0%Z \/ exit_status (mainFilesWalk st).1 = 1%Z)
  /\ printed (trace (mainFilesWalk st).2) = printed (trace st).
Proof.
  assert (Hclean : clean (mainFilesWalk st).1
                   /\ printed (trace (mainFilesWalk st).2) = printed (trace st)).
  { rewrite mainFilesWalk_run.
    assert (Hnone : forall evs : list (@Event Time),
              printed evs = [] -> printed (trace (after st evs)) = printed (trace st)).
    { intros evs Hevs. simpl. unfold printed in *. by rewrite omap_app, Hevs, app_nil_r. }
    destruct os_Args as [| prog [| arg [| more args]]];
      try (split; [by right | by apply Hnone]).
    cbv zeta.
    destruct (bool_decide _); [split; [by right | by apply Hnone] |].
    destruct (bool_decide _); [split; [by right | by apply Hnone] |].
    split; [apply filesWalk_clean |]. rewrite filesWalk_printed. by apply Hnone. }
  destruct Hclean as [[Hc | Hc] Hp]; rewrite Hc; simpl; auto.
Qed.

(** ** What the historical path does to the disk *)

Lemma stamp_file_shape gitDir gitTreeDir f st :
  same_shape (disk st) (disk (stamp_file gitDir gitTreeDir f st).2).
Proof.
  rewrite stamp_file_run. destruct (String.eqb f ""); [apply same_shape_refl |]. cbv zeta.
  destruct (disk st !! path_Join gitTreeDir f) as [file |] eqn:E;
    [| destruct (path_error _); [| apply same_shape_refl]];
    (destruct (revision_record f).2; [apply same_shape_refl |]);
    (destruct (time_record (revision_record f).1).2; [apply same_shape_refl |]).
  - destruct (utime_err file); [apply same_shape_refl |]. by apply same_shape_insert.
  - apply same_shape_refl.
Qed.

Lemma stamp_files_shape gitDir gitTreeDir fs st :
  same_shape (disk st) (disk (for_range fs (stamp_file gitDir gitTreeDir) st).2).
Proof.
  apply (for_range_rel (fun st st' => same_shape (disk st) (disk st'))).
  - intros. apply same_shape_refl.
  - intros. by eapply same_shape_trans.
  - intros. apply stamp_file_shape.
Qed.


Lemma stamp_events_shape gitTreeDir d1 d2 f :
  same_shape d1 d2 -> stamp_events gitTreeDir d1 f = stamp_events gitTreeDir d2 f.
Proof.
  intros Hs. unfold stamp_events. destruct (String.eqb f ""); [done |]. cbv zeta.
  specialize (Hs (path_Join gitTreeDir f)).
  destruct (d1 !! path_Join gitTreeDir f), (d2 !! path_Join gitTreeDir f); done.
Qed.

Lemma stamp_files_trace gitDir gitTreeDir fs :
  forall st st',
  for_range fs (stamp_file gitDir gitTreeDir) st = (Ret tt, st') ->
  trace st' = trace st ++ concat (map (stamp_events gitTreeDir (disk st)) fs)
  /\ (forall f, f ∈ fs -> f <> "" -> disk st !! path_Join gitTreeDir f = None ->
                path_error (path_Join gitTreeDir f) = None).
Proof.
  induction fs as [| f fs IH]; intros st st' Hrun.
  - injection Hrun as <-. simpl. split; [by rewrite app_nil_r |].
    intros f Hf. by apply elem_of_nil in Hf.
  - rewrite for_range_cons in Hrun.
    pose proof (stamp_file_shape gitDir gitTreeDir f st) as Hshape.
    pose proof (stamp_file_run gitDir gitTreeDir f st) as Hf.
    destruct (stamp_file gitDir gitTreeDir f st) as [[[] | code | msg] st1];
      [| done | done].
    simpl in Hshape. destruct (IH _ _ Hrun) as [Htrace Hreach].
    assert (Hhead : trace st1 = trace st ++ stamp_events gitTreeDir (disk st) f
                    /\ (f <> "" -> disk st !! path_Join gitTreeDir f = None ->
                        path_error (path_Join gitTreeDir f) = None)).
    { revert Hf. unfold stamp_events. destruct (String.eqb_spec f "") as [-> | Hne].
      { intros [= <-]. by rewrite app_nil_r. }
      cbv zeta.
      destruct (disk st !! path_Join gitTreeDir f) as [file |];
        [| destruct (path_error _); [| by intros [= ->]]];
        (destruct (revision_record f).2; [done |]);
        (destruct (time_record (revision_record f).1).2; [done |]); [| done].
      destruct (utime_err file); [done |]. by intros [= ->]. }
    destruct Hhead as [Hhead Hhere]. split.
    + rewrite Htrace, Hhead. simpl. rewrite <- app_assoc. do 3 f_equal.
      apply map_ext. intros f'. symmetry. by apply stamp_events_shape.
    + intros f' Hf' Hne' Hnone. apply elem_of_cons in Hf' as [-> | Hf'].
      * by apply Hhere.
      * apply (Hreach f' Hf' Hne'). by apply (same_shape_None _ _ _ Hshape).
Qed.

(** X14: a run of [filesWalk] that returns has done this and nothing else:
    [git ls-files], and then for each listed name in order nothing at all
    for the empty name, the existence check alone for a name that is not
    on disk, without a question to [git], a warning or a write, and for a
    file on disk the check, [git rev-list], [git show] and the write of
    the times.  In such a run every listed name that is not on disk was
    reported missing by the check. *)
Theorem filesWalk_asks_git_for_files_on_disk gitDir gitTreeDir d final :
  filesWalk gitDir gitTreeDir (start d) = (Ret tt, final) ->
  trace final =
    Exec (ls_argv gitDir) :: concat (map (stamp_events gitTreeDir d) (listed_files gitDir))
  /\ (forall f, f ∈ listed_files gitDir -> f <> "" ->
                d !! path_Join gitTreeDir f = None ->
                path_error (path_Join gitTreeDir f) = None).
Proof.
  intros Hrun. rewrite filesWalk_run in Hrun.
  destruct (cmd_failed (run_command (ls_argv gitDir))); [done |].
  apply stamp_files_trace in Hrun as [Htrace Hreach]. by rewrite Htrace.
Qed.



Lemma stamp_file_uniform gitDir gitTreeDir f : uniform (stamp_file gitDir gitTreeDir f).
Proof.
  intros st1 st2 Hshape. rewrite !stamp_file_run.
  destruct (String.eqb f ""); [split; [done | by exists []] |]. cbv zeta.
  destruct (disk st1 !! path_Join gitTreeDir f) as [file1 |] eqn:E1.
  - destruct (same_shape_Some _ _ _ _ Hshape E1) as (file2 & E2 & Herr). rewrite E2, Herr.
    destruct (revision_record f).2; [split; [done | by exists []] |].
    destruct (time_record (revision_record f).1).2; [split; [done | by exists []] |].
    destruct (utime_err file1); simpl.
    + split; [done |]. by exists [].
    + split; [done |]. exists [(path_Join gitTreeDir f, file_time f)].
      unfold apply_writes, touch. simpl. by rewrite E1, E2.
  - rewrite (same_shape_None _ _ _ Hshape E1).
    destruct (path_error _); [| split; [done | by exists []]].
    destruct (revision_record f).2; [split; [done | by exists []] |].
    destruct (time_record (revision_record f).1).2; split; try done; by exists [].
Qed.

Lemma filesWalk_uniform gitDir gitTreeDir : uniform (filesWalk gitDir gitTreeDir).
Proof.
  intros st1 st2 Hshape. rewrite !filesWalk_run.
  destruct (cmd_failed (run_command (ls_argv gitDir))); [split; [done | by exists []] |].
  apply (for_range_uniform (listed_files gitDir) (stamp_file gitDir gitTreeDir)
           (stamp_file_uniform gitDir gitTreeDir)
           (after st1 [Exec (ls_argv gitDir)]) (after st2 [Exec (ls_argv gitDir)])).
  exact Hshape.
Qed.

(** X17: [filesWalk] is idempotent on the disk: a second run on the disk
    the first run left, with the same answers of [git], ends the same way
    and leaves every file with the times the first run gave it. *)
Theorem filesWalk_twice_is_once gitDir gitTreeDir d :
  disk (filesWalk gitDir gitTreeDir
          (start (disk (filesWalk gitDir gitTreeDir (start d)).2))).2
  = disk (filesWalk gitDir gitTreeDir (start d)).2
  /\ (filesWalk gitDir gitTreeDir
        (start (disk (filesWalk gitDir gitTreeDir (start d)).2))).1
     = (filesWalk gitDir gitTreeDir (start d)).1.
Proof.
  assert (Hshape : same_shape d (disk (filesWalk gitDir gitTreeDir (start d)).2)).
  { rewrite filesWalk_run.
    destruct (cmd_failed (run_command (ls_argv gitDir))); [apply same_shape_refl |].
    apply (stamp_files_shape gitDir gitTreeDir (listed_files gitDir)
             (after (start d) [Exec (ls_argv gitDir)])). }
  destruct (filesWalk_uniform gitDir gitTreeDir (start d)
              (start (disk (filesWalk gitDir gitTreeDir (start d)).2)) Hshape)
    as (Hout & ws & Hd1 & Hd2).
  split; [| done].
  simpl in Hd1, Hd2. rewrite Hd2. rewrite Hd1 at 1 2. apply apply_writes_idem.
Qed.

End FilesWalkProperties.

(** * The further properties on the sample worlds *)

Section MoreOnTwoCommits.

#[local] Existing Instance two_commits.

Lemma chtimes_failure_is_fatal_witness :
  for_range (["x.txt"] ++ "y.txt" :: ["z.txt"]) (update_file "/repo" timeB) (start tree_locked)
  = (Exit 1,
     {| disk := disk (for_range ["x.txt"] (update_file "/repo" timeB) (start tree_locked)).2;
        trace := trace (for_range ["x.txt"] (update_file "/repo" timeB) (start tree_locked)).2
                 ++ [Println [VTime timeB; VStr ":"; VStr "y.txt"];
                     Stat (path_Join "/repo" "y.txt");
                     Chtimes (path_Join "/repo" "y.txt") timeB timeB;
                     Stderr ("Error changing file mtime: " +:+
                             "chtimes /repo/y.txt: operation not permitted")] |}).
Proof.
  apply (chtimes_failure_is_fatal "/repo" timeB ["x.txt"] "y.txt" ["z.txt"]
           (start tree_locked) _
           {| atime := checkout_time; mtime := checkout_time;
              utime_err := Some "chtimes /repo/y.txt: operation not permitted" |}).
  - reflexivity.
  - reflexivity.
  - reflexivity.
Defined.



Lemma chtimes_is_checked_witness :
  trace (logWalk "/repo" (start tree_xy)).2 !! 4 = Some (Chtimes "/repo/x.txt" timeB timeB)
  /\ timeB = timeB
  /\ (is_Some (tree_xy !! "/repo/x.txt")
      \/ (tree_xy !! "/repo/x.txt" = None /\ is_Some (path_error "/repo/x.txt")))
  /\ exists j, 4 = S j /\ trace (logWalk "/repo" (start tree_xy)).2 !! j
                          = Some (Stat "/repo/x.txt").
Proof.
  split; [reflexivity |].
  apply (chtimes_is_checked "/repo" tree_xy 4 "/repo/x.txt" timeB timeB). reflexivity.
Defined.

Lemma getCommits_splits_output_witness :
  cmd_failed (run_command log_argv) = false
  /\ exists hashes,
       (getCommits (start tree_xy)).1 = Ret (hashes, None)
       /\ join_lines hashes = cmd_out (run_command log_argv)
       /\ (forall h, h ∈ hashes -> ~ occurs newline h)
       /\ (forall s, cmd_out (run_command log_argv) = s +:+ nl -> last hashes = Some "").
Proof.
  split; [reflexivity |]. apply (getCommits_splits_output (start tree_xy)). reflexivity.
Defined.

End MoreOnTwoCommits.

Section StartupFailures.

Lemma startup_failure_is_fatal_witness :
  main (W := no_cwd) (start tree_x) =
    (Exit 1,
     {| disk := tree_x;
        trace := [Stderr ("Error getting working directory: " +:+
                          "getwd: no such file or directory");
                  Println [VStr "Usage:"];
                  Println [VStr "cd <git-dir> && <bin-dir>/gitime"]] |})
  /\ main (W := no_repository) (start tree_x) =
     (Exit 1,
      {| disk := tree_x;
         trace := [Exec log_argv;
                   Stderr ("Error listing git commits: " +:+ "fatal: not a git repository")] |}).
Proof.
  split.
  - apply (proj1 (startup_failure_is_fatal (W := no_cwd) (start tree_x))). reflexivity.
  - apply (proj2 (startup_failure_is_fatal (W := no_repository) (start tree_x)) "/repo");
      reflexivity.
Defined.

End StartupFailures.

Section OnFilesWorld.

#[local] Existing Instance files_world.
#[local] Existing Instance unix_host.

Lemma no_newline_in_date : ~ occurs newline "2023-02-01 12:00:00 +0000".
Proof. simpl. intuition discriminate. Qed.

Lemma gitCommitTime_needs_newline_witness :
  cmd_failed (run_command (ai_argv "commitC")) = false
  /\ time_Parse layout_iso (cmd_out (run_command (ai_argv "commitC"))) = Some timeB
  /\ (gitCommitTime "/repo/.git" "/repo" "commitC" (start tree_repo)).1 =
     Ret (time_zero,
          Some ("Could not separate date from this output:" +:+ nl +:+
                cmd_out (run_command (ai_argv "commitC")))).
Proof.
  split; [reflexivity |]. split; [reflexivity |].
  apply (gitCommitTime_needs_newline "/repo/.git" "/repo" "commitC" (start tree_repo)).
  - reflexivity.
  - exact no_newline_in_date.
Defined.

Lemma gitCommitTime_reads_first_line_witness :
  cmd_out (run_command (ai_argv "commitB"))
  = "2023-02-01 12:00:00 +0000" +:+ nl +:+ unlines [""; "diff"]
  /\ (gitCommitTime "/repo/.git" "/repo" "commitB" (start tree_repo)).1 =
     Ret match time_Parse layout_iso "2023-02-01 12:00:00 +0000" with
         | Some t => (t, None)
         | None =>
             (time_zero,
              Some ("Could not understand this time stamp: " +:+
                    "2023-02-01 12:00:00 +0000"))
         end.
Proof.
  split; [reflexivity |].
  apply (gitCommitTime_reads_first_line "/repo/.git" "/repo" "commitB" (start tree_repo)
           "2023-02-01 12:00:00 +0000" (unlines [""; "diff"])).
  - reflexivity.
  - reflexivity.
  - exact no_newline_in_date.
Defined.

Lemma gitFileRevision_strips_newlines_witness :
  cmd_out (run_command (rev_argv "x.txt")) = "commitB" +:+ nl
  /\ exists rev,
       (gitFileRevision "/repo/.git" "/repo" "x.txt" (start tree_repo)).1 = Ret (rev, None)
       /\ (forall r, rev <> String newline r)
       /\ (forall r, rev <> r +:+ nl)
       /\ (forall h, cmd_out (run_command (rev_argv "x.txt")) = h +:+ nl ->
                     ~ occurs newline h -> rev = h)
       /\ (cmd_out (run_command (rev_argv "x.txt")) = "" -> rev = "").
Proof.
  split; [reflexivity |].
  apply (gitFileRevision_strips_newlines "/repo/.git" "/repo" "x.txt" (start tree_repo)).
  reflexivity.
Defined.

Lemma filesWalk_asks_git_for_files_on_disk_witness :
  listed_files "/repo/.git" = ["old.txt"; "x.txt"; "y.txt"; ""]
  /\ tree_repo !! path_Join "/repo" "old.txt" = None
  /\ trace (filesWalk "/repo/.git" "/repo" (start tree_repo)).2 =
       Exec (ls_argv "/repo/.git")
       :: concat (map (stamp_events "/repo" tree_repo) (listed_files "/repo/.git"))
  /\ (forall f, f ∈ listed_files "/repo/.git" -> f <> "" ->
                tree_repo !! path_Join "/repo" f = None ->
                path_error (path_Join "/repo" f) = None).
Proof.
  split; [reflexivity |]. split; [reflexivity |].
  apply (filesWalk_asks_git_for_files_on_disk "/repo/.git" "/repo" tree_repo).
  reflexivity.
Defined.



End OnFilesWorld.

Section OnDirBecameFile.

#[local] Existing Instance dir_became_file.

(** C4: a changed path that is not on disk is not always skipped.  In the
    history where the directory [docs] became a regular file, the path
    [docs/readme.txt] of commit B is not in the work tree; the existence
    check of it fails with "not a directory", of which [os.IsNotExist]
    does not hold, so that the run tries to set the times of the path,
    fails, and ends with status 1 after the error message: there is no
    warning of a skipped file, and [x.txt], the next path of the commit,
    is never looked at and keeps the time of the checkout. *)
Theorem missing_path_under_a_file_is_fatal :
  "docs/readme.txt" ∈ changed_paths "commitB"
  /\ tree_docs !! path_Join "/repo" "docs/readme.txt" = None
  /\ logWalk "/repo" (start tree_docs) =
     (Exit 1,
      {| disk := <["/repo/docs" := fresh timeB]> tree_docs;
         trace :=
           [Exec log_argv;
            Exec (show_argv "commitB");
            Println [VTime timeB; VStr ":"; VStr "docs"];
            Stat "/repo/docs";
            Chtimes "/repo/docs" timeB timeB;
            Println [VTime timeB; VStr ":"; VStr "docs/readme.txt"];
            Stat "/repo/docs/readme.txt";
            Chtimes "/repo/docs/readme.txt" timeB timeB;
            Stderr ("Error changing file mtime: " +:+
                    "chtimes /repo/docs/readme.txt: not a directory")] |})
  /\ exit_status (logWalk "/repo" (start tree_docs)).1 = 1%Z
  /\ disk (logWalk "/repo" (start tree_docs)).2 !! "/repo/x.txt" = Some (fresh checkout_time).
Proof.
  split; [change ("docs/readme.txt" ∈ ["docs"; "docs/readme.txt"; "x.txt"]); right; left |].
  repeat split; reflexivity.
Qed.

End OnDirBecameFile.

Section MoreOnTwoCommitsAgain.

#[local] Existing Instance two_commits.

Lemma missing_paths_are_skipped_with_warning_witness :
  tree_x !! path_Join "/repo" "y.txt" = None
  /\ "y.txt" ∈ changed_paths "commitB"
  /\ exists final,
       logWalk "/repo" (start tree_x) = (Ret tt, final)
       /\ trace final = Exec log_argv :: concat (map (commit_events "/repo" tree_x) commit_ids)
       /\ (forall p, tree_x !! p = None -> disk final !! p = None).
Proof.
  split; [reflexivity |]. split; [change ("y.txt" ∈ ["x.txt"; "y.txt"]); right; left |].
  apply (missing_paths_are_skipped_with_warning "/repo" tree_x).
  - reflexivity.
  - intros h Hin Hne. rewrite two_commits_ids in Hin.
    apply elem_of_cons in Hin as [-> | Hin]; [reflexivity |].
    apply elem_of_cons in Hin as [-> | Hin]; [reflexivity |].
    apply list_elem_of_singleton in Hin. done.
  - apply tree_x_stampable.
  - reflexivity.
Defined.

End MoreOnTwoCommitsAgain.
